(** * Shift timetable of the clinic chain (src/app/page.tsx)

    A shallow embedding of the state and of the event handlers of the
    [App] component: the roster, the monthly schedule (date key ->
    employee id -> shift entry), the shift edit and read functions, the
    roster operations, the daily staff count and the start-up load.

    Strings are byte strings: the Thai literals of the source are kept as
    their UTF-8 bytes, and [===] on strings is equality of the bytes. *)

From Stdlib Require Import ZArith List Bool Lia.
From Stdlib Require Import Strings.String Strings.Ascii.
From Stdlib Require Import Numbers.DecimalString Numbers.DecimalZ.
From stdpp Require Import base option list strings gmap fin_maps.

Local Open Scope string_scope.

(** ** The JavaScript library functions the component calls *)

Module JS.

(** [String(n)] for an integer [n]: decimal digits, [-] for a negative. *)
Definition String_of (n : Z) : string :=
  NilEmpty.string_of_int (Z.to_int n).

(** [s.padStart(targetLength, pad)] for a one-character [pad]. *)
Definition padStart (targetLength : nat) (pad : ascii) (s : string) : string :=
  string_of_list_ascii (repeat pad (targetLength - String.length s)) ++ s.

(** Whether every character of [s] is white space or a line terminator
    (ECMAScript WhiteSpace and LineTerminator, in UTF-8): tab, LF, VT, FF,
    CR, space, U+00A0, U+1680, U+2000..U+200A, U+2028, U+2029, U+202F,
    U+205F, U+3000, U+FEFF. *)
Definition ws1 (c : ascii) : bool :=
  let n := nat_of_ascii c in
  ((9 <=? n) && (n <=? 13) || (n =? 32))%nat.

Definition ws2 (c1 c2 : ascii) : bool :=
  ((nat_of_ascii c1 =? 194) && (nat_of_ascii c2 =? 160))%nat.

Definition ws3 (c1 c2 c3 : ascii) : bool :=
  let a := nat_of_ascii c1 in
  let b := nat_of_ascii c2 in
  let c := nat_of_ascii c3 in
  ((a =? 225) && (b =? 154) && (c =? 128)
   || (a =? 226) && (b =? 128)
      && ((128 <=? c) && (c <=? 138) || (c =? 168) || (c =? 169) || (c =? 175))
   || (a =? 226) && (b =? 129) && (c =? 159)
   || (a =? 227) && (b =? 128) && (c =? 128)
   || (a =? 239) && (b =? 187) && (c =? 191))%nat.

Fixpoint allWhiteSpace (s : string) : bool :=
  match s with
  | EmptyString => true
  | String c1 r1 =>
      if ws1 c1 then allWhiteSpace r1
      else match r1 with
           | String c2 r2 =>
               if ws2 c1 c2 then allWhiteSpace r2
               else match r2 with
                    | String c3 r3 =>
                        if ws3 c1 c2 c3 then allWhiteSpace r3 else false
                    | EmptyString => false
                    end
           | EmptyString => false
           end
  end.

(** [s.trim()] used as a condition: the trimmed string is truthy exactly
    when [s] has a character that is not white space. *)
Definition trim_truthy (s : string) : bool := negb (allWhiteSpace s).

(** The [Date] constructor reads a year in 0..99 as 1900 + year. *)
Definition fullYear (year : Z) : Z :=
  if ((0 <=? year) && (year <=? 99))%Z then (1900 + year)%Z else year.

(** Days from 1970-01-01 to the given day of the proleptic Gregorian
    calendar, the month counted from 1. *)
Definition days_from_civil (y m d : Z) : Z :=
  (let y' := if m <=? 2 then y - 1 else y in
   let era := y' / 400 in
   let yoe := y' - era * 400 in
   let mp := if m >? 2 then m - 3 else m + 9 in
   let doy := (153 * mp + 2) / 5 + d - 1 in
   let doe := yoe * 365 + yoe / 4 - yoe / 100 + doy in
   era * 146097 + doe - 719468)%Z.

(** [new Date(year, month, day).getDay()]: the weekday, 0 for Sunday, of
    the local calendar day; the month is counted from 0 and months and
    days out of range carry over. *)
Definition getDay (year month day : Z) : nat :=
  (let y := fullYear year + month / 12 in
   let m := month mod 12 + 1 in
   Z.to_nat ((days_from_civil y m 1 + (day - 1) + 4) mod 7))%Z.

End JS.

(** ** Shift values *)

Definition MORNING : string := "เช้า".
Definition AFTERNOON : string := "บ่าย".
Definition DAY_OFF : string := "หยุด".
Definition LEAVE : string := "ลา".
Definition SICK : string := "ป่วย".
Definition CLOSED : string := "ปิด".
Definition NO_DAY_OFF : string := "ไม่มี".
Definition PART_TIME_POOL : string := "พาร์ทไทม์".

(** [type ShiftEntry = BaseShiftString | WorkingShiftObject]: a plain
    string, or an object with the fields [type] and [branch]. *)
Inductive ShiftEntry : Type :=
| ShiftString (s : string)
| WorkingShiftObject (type branch : string).

#[global] Instance ShiftEntry_eq_dec : EqDecision ShiftEntry.
Proof. solve_decision. Defined.

(** [isWorkingShiftObject(shift)]: [undefined] and strings are not
    objects; the objects of the type carry both fields. *)
Definition isWorkingShiftObject (shift : option ShiftEntry) : bool :=
  match shift with
  | Some (WorkingShiftObject _ _) => true
  | _ => false
  end.

(** [value === 'เช้า' || value === 'บ่าย'] *)
Definition isWorkingValue (value : string) : bool :=
  bool_decide (value = MORNING) || bool_decide (value = AFTERNOON).

(** ** Employees *)

Inductive EmployeeType : Type := FullTime | PartTime.

#[global] Instance EmployeeType_eq_dec : EqDecision EmployeeType.
Proof. solve_decision. Defined.

Record Employee : Type := mkEmployee {
  id : string;
  name : string;
  position : string;
  branch : string;
  type : EmployeeType
}.

#[global] Instance Employee_eq_dec : EqDecision Employee.
Proof. solve_decision. Defined.

(** [Omit<Employee, 'id'>], the draft of the add form. *)
Record NewEmployee : Type := mkNewEmployee {
  new_name : string;
  new_position : string;
  new_branch : string;
  new_type : EmployeeType
}.

(** ** The schedule: date key -> employee id -> shift entry *)

Abbreviation MonthlySchedule := (gmap string (gmap string ShiftEntry)).

(** [schedule[dateKey]?.[employeeId]] *)
Definition entryAt (schedule : MonthlySchedule) (dateKey employeeId : string)
  : option ShiftEntry :=
  schedule !! dateKey ≫= (λ inner, inner !! employeeId).

(** [schedule[dateKey][employeeId] = shift] on a schedule that has the
    date; the inner object is updated in place. Without the date the
    assignment throws, which no caller reaches. *)
Definition assignEntry (schedule : MonthlySchedule) (dateKey employeeId : string)
    (shift : ShiftEntry) : MonthlySchedule :=
  match schedule !! dateKey with
  | Some inner => <[dateKey := <[employeeId := shift]> inner]> schedule
  | None => schedule
  end.

(** [if (!schedule[dateKey]) schedule[dateKey] = {}] *)
Definition ensureDate (schedule : MonthlySchedule) (dateKey : string)
  : MonthlySchedule :=
  match schedule !! dateKey with
  | Some _ => schedule
  | None => <[dateKey := ∅]> schedule
  end.

(** [`${currentYear}-${String(currentMonth + 1).padStart(2, '0')}-${String(day).padStart(2, '0')}`] *)
Definition dateKeyOf (currentYear currentMonth day : Z) : string :=
  JS.String_of currentYear ++ "-"
  ++ JS.padStart 2 "0"%char (JS.String_of (currentMonth + 1)) ++ "-"
  ++ JS.padStart 2 "0"%char (JS.String_of day).

(** ** The modal and the component state

    The callbacks of the modal are closures; they are kept as data, with
    the values they capture. *)

Inductive ModalState : Type :=
| mkModal (isOpen : bool) (title message : string)
    (onConfirm onCancel : ModalAction) (showCancel : bool)
with ModalAction : Type :=
| NoAction
    (* [() => {}] *)
| CloseModal (captured : ModalState)
    (* [() => setModal({ ...modal, isOpen: false })] *)
| ResetModal
    (* [() => setModal({ ...modal, isOpen: false, title: '', ... })] *)
| ConfirmDelete (captured : list Employee) (deleted : string).
    (* the [onConfirm] of [handleDeleteEmployee], with the roster of the
       render that opened the modal *)

Definition isOpen (m : ModalState) : bool :=
  match m with mkModal o _ _ _ _ _ => o end.
Definition title (m : ModalState) : string :=
  match m with mkModal _ t _ _ _ _ => t end.
Definition message (m : ModalState) : string :=
  match m with mkModal _ _ msg _ _ _ => msg end.
Definition onConfirm (m : ModalState) : ModalAction :=
  match m with mkModal _ _ _ c _ _ => c end.
Definition onCancel (m : ModalState) : ModalAction :=
  match m with mkModal _ _ _ _ c _ => c end.
Definition showCancel (m : ModalState) : bool :=
  match m with mkModal _ _ _ _ _ s => s end.

Definition closedModal : ModalState :=
  mkModal false "" "" NoAction NoAction false.

Definition initialBranches : list string :=
  [ "บึงทับช้าง"; "บัวใหญ่"; "โนนสูง"; "ขามสะแกแสง"; "หนองไข่น้ำ";
    "พนมวันท์"; "วังน้ำเขียว"; "เคหะ"; "โนนไทย"; "จักราช" ].

Definition dayNames : list string :=
  [ "อาทิตย์"; "จันทร์"; "อังคาร"; "พุธ"; "พฤหัสบดี"; "ศุกร์"; "เสาร์"; NO_DAY_OFF ].

(** [initialBranches[0]] *)
Definition firstBranch : string := default "" (head initialBranches).

Record AppState : Type := mkState {
  employees : list Employee;
  branches : list string;
  monthlySchedule : MonthlySchedule;
  currentYear : Z;      (* [currentDate.getFullYear()] *)
  currentMonth : Z;     (* [currentDate.getMonth()], from 0 *)
  selectedBranch : string;
  editingEmployeeId : option string;
  editedEmployee : Employee;
  newEmployee : NewEmployee;
  modal : ModalState;
  clinicDayOff : string
}.

Definition setEmployees (v : list Employee) (st : AppState) : AppState :=
  mkState v (branches st) (monthlySchedule st) (currentYear st) (currentMonth st)
    (selectedBranch st) (editingEmployeeId st) (editedEmployee st)
    (newEmployee st) (modal st) (clinicDayOff st).

Definition setMonthlySchedule (v : MonthlySchedule) (st : AppState) : AppState :=
  mkState (employees st) (branches st) v (currentYear st) (currentMonth st)
    (selectedBranch st) (editingEmployeeId st) (editedEmployee st)
    (newEmployee st) (modal st) (clinicDayOff st).

Definition setCurrentDate (y m : Z) (st : AppState) : AppState :=
  mkState (employees st) (branches st) (monthlySchedule st) y m
    (selectedBranch st) (editingEmployeeId st) (editedEmployee st)
    (newEmployee st) (modal st) (clinicDayOff st).

Definition setSelectedBranch (v : string) (st : AppState) : AppState :=
  mkState (employees st) (branches st) (monthlySchedule st) (currentYear st)
    (currentMonth st) v (editingEmployeeId st) (editedEmployee st)
    (newEmployee st) (modal st) (clinicDayOff st).

Definition setEditingEmployeeId (v : option string) (st : AppState) : AppState :=
  mkState (employees st) (branches st) (monthlySchedule st) (currentYear st)
    (currentMonth st) (selectedBranch st) v (editedEmployee st)
    (newEmployee st) (modal st) (clinicDayOff st).

Definition setEditedEmployee (v : Employee) (st : AppState) : AppState :=
  mkState (employees st) (branches st) (monthlySchedule st) (currentYear st)
    (currentMonth st) (selectedBranch st) (editingEmployeeId st) v
    (newEmployee st) (modal st) (clinicDayOff st).

Definition setNewEmployee (v : NewEmployee) (st : AppState) : AppState :=
  mkState (employees st) (branches st) (monthlySchedule st) (currentYear st)
    (currentMonth st) (selectedBranch st) (editingEmployeeId st)
    (editedEmployee st) v (modal st) (clinicDayOff st).

Definition setModal (v : ModalState) (st : AppState) : AppState :=
  mkState (employees st) (branches st) (monthlySchedule st) (currentYear st)
    (currentMonth st) (selectedBranch st) (editingEmployeeId st)
    (editedEmployee st) (newEmployee st) v (clinicDayOff st).

Definition setClinicDayOff (v : string) (st : AppState) : AppState :=
  mkState (employees st) (branches st) (monthlySchedule st) (currentYear st)
    (currentMonth st) (selectedBranch st) (editingEmployeeId st)
    (editedEmployee st) (newEmployee st) (modal st) v.

(** The state of the first render; [today] is [new Date()]. *)
Definition initialState (todayYear todayMonth : Z) : AppState :=
  mkState [] initialBranches ∅ todayYear todayMonth firstBranch None
    (mkEmployee "" "" "" "" FullTime)
    (mkNewEmployee "" "" firstBranch FullTime)
    closedModal "อาทิตย์".

(** [employees.find(e => e.id === employeeId)] *)
Definition findEmployee (emps : list Employee) (employeeId : string)
  : option Employee :=
  List.find (λ e, bool_decide (id e = employeeId)) emps.

(** [dayNames[dayOfWeek] === clinicDayOff && clinicDayOff !== 'ไม่มี'] *)
Definition isClinicDayOffCell (st : AppState) (day : Z) : bool :=
  let dayOfWeek := JS.getDay (currentYear st) (currentMonth st) day in
  bool_decide (dayNames !! dayOfWeek = Some (clinicDayOff st))
  && negb (bool_decide (clinicDayOff st = NO_DAY_OFF)).

(** ** Editing and reading a shift *)

(** The loop [for (const branch of branches)] of [handleShiftChange]: it
    skips the selected branch and, at any other branch, reads the entry of
    the employee on the date; the result is the branch that a blocking
    entry names, for the message of the modal. *)
Fixpoint workingElsewhere (monthlySchedule : MonthlySchedule)
    (otherBranchDateKey : string) (employee : Employee)
    (selectedBranch : string) (branches : list string) : option string :=
  match branches with
  | [] => None
  | branch :: rest =>
      if bool_decide (branch = selectedBranch)
      then workingElsewhere monthlySchedule otherBranchDateKey employee
             selectedBranch rest
      else
        match entryAt monthlySchedule otherBranchDateKey (id employee) with
        | Some (WorkingShiftObject _ otherBranch) => Some otherBranch
        | _ => workingElsewhere monthlySchedule otherBranchDateKey employee
                 selectedBranch rest
        end
  end.

Definition clinicClosedModal (st : AppState) (day : Z) : ModalState :=
  let dayOfWeek := JS.getDay (currentYear st) (currentMonth st) day in
  mkModal true "วันหยุดคลินิก"
    ("คลินิกปิดทำการในวัน" ++ default "undefined" (dayNames !! dayOfWeek)
     ++ " ไม่สามารถจัดเวรได้")
    (CloseModal (modal st)) NoAction false.

(** A branch name between double quotes, as the message shows it. *)
Definition quoted (s : string) : string :=
  let dquote := ascii_of_nat 34 in
  String dquote (s ++ String dquote EmptyString).

Definition partTimeModal (st : AppState) (otherBranch : string) : ModalState :=
  mkModal true "ข้อจำกัดพนักงานพาร์ทไทม์"
    ("พนักงานพาร์ทไทม์คนนี้ถูกจัดเวรในสาขา " ++ quoted otherBranch
     ++ " อยู่แล้วในวันนี้ ไม่สามารถจัดเวรในสาขา "
     ++ quoted (selectedBranch st) ++ " ได้")
    (CloseModal (modal st)) NoAction false.

(** The function given to [setMonthlySchedule] in [handleShiftChange]:
    the next schedule, and the modal it opens when it blocks the edit.
    [prevSchedule] is the argument of the updater; the loop reads the
    [monthlySchedule] of the render. *)
Definition shiftChangeUpdater (st : AppState) (employee : Employee)
    (employeeId : string) (day : Z) (value : string)
    (prevSchedule : MonthlySchedule) : MonthlySchedule * option ModalState :=
  let dateKey := dateKeyOf (currentYear st) (currentMonth st) day in
  let newSchedule := ensureDate prevSchedule dateKey in
  if isClinicDayOffCell st day then
    if negb (bool_decide (value = CLOSED))
    then (prevSchedule, Some (clinicClosedModal st day))
    else (assignEntry newSchedule dateKey employeeId (ShiftString CLOSED), None)
  else
    match type employee with
    | PartTime =>
        if isWorkingValue value then
          match workingElsewhere (monthlySchedule st) dateKey employee
                  (selectedBranch st) (branches st) with
          | Some otherBranch =>
              (prevSchedule, Some (partTimeModal st otherBranch))
          | None =>
              (assignEntry newSchedule dateKey employeeId
                 (WorkingShiftObject value (selectedBranch st)), None)
          end
        else
          (assignEntry newSchedule dateKey employeeId (ShiftString value), None)
    | FullTime =>
        (assignEntry newSchedule dateKey employeeId (ShiftString value), None)
    end.

Definition handleShiftChange (st : AppState) (employeeId : string) (day : Z)
    (value : string) : AppState :=
  match findEmployee (employees st) employeeId with
  | None => st
  | Some employee =>
      let '(schedule, opened) :=
        shiftChangeUpdater st employee employeeId day value (monthlySchedule st) in
      let st' := setMonthlySchedule schedule st in
      match opened with
      | Some m => setModal m st'
      | None => st'
      end
  end.

Definition getShiftValue (st : AppState) (employeeId : string) (day : Z)
  : string :=
  match findEmployee (employees st) employeeId with
  | None => ""
  | Some employee =>
      let dateKey := dateKeyOf (currentYear st) (currentMonth st) day in
      if isClinicDayOffCell st day then CLOSED
      else
        let shiftEntry := entryAt (monthlySchedule st) dateKey (id employee) in
        match type employee with
        | FullTime =>
            match shiftEntry with
            | Some (ShiftString s) => s
            | _ => ""
            end
        | PartTime =>
            match shiftEntry with
            | Some (WorkingShiftObject t b) =>
                if bool_decide (b = selectedBranch st) then t else ""
            | Some (ShiftString s) => s
            | None => ""
            end
        end
  end.

(** ** The roster *)

Definition incompleteModal (st : AppState) : ModalState :=
  mkModal true "ข้อมูลไม่ครบถ้วน"
    "กรุณากรอกชื่อ, ตำแหน่ง และสาขา (สำหรับ Full-time) หรือประเภทพนักงาน (สำหรับ Part-time)"
    (CloseModal (modal st)) NoAction false.

Definition idPrefix (t : EmployeeType) : string :=
  match t with FullTime => "emp" | PartTime => "pte" end.

Definition handleAddEmployee (st : AppState) : AppState :=
  let draft := newEmployee st in
  if JS.trim_truthy (new_name draft) && JS.trim_truthy (new_position draft)
     && (bool_decide (new_type draft = PartTime)
         || JS.trim_truthy (new_branch draft))
  then
    let sameType := filter (λ e, type e = new_type draft) (employees st) in
    let newId :=
      idPrefix (new_type draft) ++ JS.String_of (Z.of_nat (length sameType) + 1) in
    let added :=
      mkEmployee newId (new_name draft) (new_position draft)
        (match new_type draft with
         | PartTime => PART_TIME_POOL
         | FullTime => new_branch draft
         end)
        (new_type draft) in
    setNewEmployee (mkNewEmployee "" "" firstBranch FullTime)
      (setEmployees (employees st ++ [added]) st)
  else setModal (incompleteModal st) st.

Definition handleDeleteEmployee (st : AppState) (deleted : string) : AppState :=
  setModal
    (mkModal true "ยืนยันการลบ"
       "คุณแน่ใจหรือไม่ที่ต้องการลบพนักงานคนนี้? ตารางเวรที่เกี่ยวข้องอาจหายไป"
       (ConfirmDelete (employees st) deleted) ResetModal true)
    st.

(** One round of the [forEach] over the date keys in the confirmation of
    a delete. *)
Definition dropEmployeeAt (deleted : string) (newSchedule : MonthlySchedule)
    (dateKey : string) : MonthlySchedule :=
  match newSchedule !! dateKey with
  | Some inner =>
      let inner' := delete deleted inner in
      if (size inner' =? 0)%nat then delete dateKey newSchedule
      else <[dateKey := inner']> newSchedule
  | None => newSchedule
  end.

(** The function given to [setMonthlySchedule] in the confirmation. *)
Definition deleteUpdater (deleted : string) (prevSchedule : MonthlySchedule)
  : MonthlySchedule :=
  fold_left (dropEmployeeAt deleted) (map_to_list prevSchedule).*1 prevSchedule.

(** Running a callback of the modal. *)
Definition runModalAction (a : ModalAction) (st : AppState) : AppState :=
  match a with
  | NoAction => st
  | CloseModal (mkModal _ t msg c1 c2 sc) =>
      setModal (mkModal false t msg c1 c2 sc) st
  | ResetModal => setModal closedModal st
  | ConfirmDelete captured deleted =>
      setModal closedModal
        (setMonthlySchedule (deleteUpdater deleted (monthlySchedule st))
           (setEmployees (filter (λ emp, id emp ≠ deleted) captured) st))
  end.

Definition clickConfirm (st : AppState) : AppState :=
  runModalAction (onConfirm (modal st)) st.

Definition clickCancel (st : AppState) : AppState :=
  runModalAction (onCancel (modal st)) st.

(** Deleting an employee and confirming in the modal. *)
Definition confirmedDelete (st : AppState) (deleted : string) : AppState :=
  clickConfirm (handleDeleteEmployee st deleted).

Definition startEditEmployee (st : AppState) (employee : Employee) : AppState :=
  setEditedEmployee employee (setEditingEmployeeId (Some (id employee)) st).

(** [handleEditEmployeeChange], by the field the input is named after. *)
Inductive EditField : Type :=
| EditName (v : string)
| EditPosition (v : string)
| EditType (v : EmployeeType)
| EditBranch (v : string).

Definition handleEditEmployeeChange (st : AppState) (f : EditField) : AppState :=
  let e := editedEmployee st in
  setEditedEmployee
    (match f with
     | EditName v => mkEmployee (id e) v (position e) (branch e) (type e)
     | EditPosition v => mkEmployee (id e) (name e) v (branch e) (type e)
     | EditType v => mkEmployee (id e) (name e) (position e) (branch e) v
     | EditBranch v => mkEmployee (id e) (name e) (position e) v (type e)
     end) st.

Definition saveEditEmployee (st : AppState) : AppState :=
  let e := editedEmployee st in
  let saved :=
    mkEmployee (id e) (name e) (position e)
      (match type e with PartTime => PART_TIME_POOL | FullTime => branch e end)
      (type e) in
  setEditingEmployeeId None
    (setEmployees
       (map (λ emp, if bool_decide (Some (id emp) = editingEmployeeId st)
                    then saved else emp)
            (employees st))
       st).

(** [new Date(prevDate.getFullYear(), prevDate.getMonth() + direction, 1)] *)
Definition changeMonth (st : AppState) (direction : Z) : AppState :=
  let m := (currentMonth st + direction)%Z in
  setCurrentDate (JS.fullYear (currentYear st) + m / 12)%Z (m mod 12)%Z st.

(** ** The view *)

Definition displayedEmployees (st : AppState) : list Employee :=
  filter (λ employee, type employee = PartTime
                      ∨ branch employee = selectedBranch st) (employees st).

(** One round of the [forEach] of [getDailyStaffCount]. *)
Definition countEmployee (st : AppState) (day : Z) (count : nat)
    (employee : Employee) : nat :=
  let dateKey := dateKeyOf (currentYear st) (currentMonth st) day in
  let shiftEntry := entryAt (monthlySchedule st) dateKey (id employee) in
  if isClinicDayOffCell st day then count
  else
    match type employee with
    | FullTime =>
        if bool_decide (branch employee = selectedBranch st) then
          match shiftEntry with
          | Some (ShiftString s) => if isWorkingValue s then S count else count
          | _ => count
          end
        else count
    | PartTime =>
        match shiftEntry with
        | Some (WorkingShiftObject t b) =>
            if bool_decide (b = selectedBranch st) && isWorkingValue t
            then S count else count
        | _ => count
        end
    end.

Definition getDailyStaffCount (st : AppState) (day : Z) : nat :=
  fold_left (countEmployee st day) (employees st) 0%nat.

(** ** Loading the stored document

    A document of the collection: [employees] when it is an array, the
    entries of [schedule] (employee id, then day, then shift) in the order
    of [Object.entries], and [date]. *)

Record ScheduleDocument : Type := mkDocument {
  doc_employees : option (list Employee);
  doc_schedule : option (list (string * list (string * ShiftEntry)));
  doc_date : string
}.

(** The body of the inner [forEach]: the key of the store is [latest.date];
    the day of the entry is not read. *)
Definition loadShift (date empId : string) (scheduleMap : MonthlySchedule)
    (entry : string * ShiftEntry) : MonthlySchedule :=
  let '(day, shift) := entry in
  assignEntry (ensureDate scheduleMap date) date empId shift.

Definition loadDays (date : string) (scheduleMap : MonthlySchedule)
    (entry : string * list (string * ShiftEntry)) : MonthlySchedule :=
  let '(empId, days) := entry in
  fold_left (loadShift date empId) days scheduleMap.

Definition decodeSchedule (latest : ScheduleDocument) : MonthlySchedule :=
  match doc_schedule latest with
  | Some entries => fold_left (loadDays (doc_date latest)) entries ∅
  | None => ∅
  end.

Definition loadScheduleFromFirestore (schedules : list ScheduleDocument)
    (st : AppState) : AppState :=
  match schedules with
  | latest :: _ =>
      setMonthlySchedule (decodeSchedule latest)
        (setEmployees (default [] (doc_employees latest)) st)
  | [] => st
  end.

(** ** The events of a session and the states they reach *)

Inductive Event : Type :=
| ShiftChange (employeeId : string) (day : Z) (value : string)
| DraftChange (draft : NewEmployee)
| AddEmployee
| DeleteEmployee (deleted : string)
| Confirm
| Cancel
| StartEdit (employee : Employee)
| EditChange (f : EditField)
| SaveEdit
| CancelEdit
| ChangeMonth (direction : Z)
| SelectBranch (b : string)
| SelectDayOff (d : string)
| Loaded (schedules : list ScheduleDocument).

Definition dispatch (st : AppState) (ev : Event) : AppState :=
  match ev with
  | ShiftChange employeeId day value => handleShiftChange st employeeId day value
  | DraftChange draft => setNewEmployee draft st
  | AddEmployee => handleAddEmployee st
  | DeleteEmployee deleted => handleDeleteEmployee st deleted
  | Confirm => clickConfirm st
  | Cancel => clickCancel st
  | StartEdit employee => startEditEmployee st employee
  | EditChange f => handleEditEmployeeChange st f
  | SaveEdit => saveEditEmployee st
  | CancelEdit => setEditingEmployeeId None st
  | ChangeMonth direction => changeMonth st direction
  | SelectBranch b => setSelectedBranch b st
  | SelectDayOff d => setClinicDayOff d st
  | Loaded schedules => loadScheduleFromFirestore schedules st
  end.

Inductive reachable : AppState → Prop :=
| reach_initial (todayYear todayMonth : Z) :
    reachable (initialState todayYear todayMonth)
| reach_event (st : AppState) (ev : Event) :
    reachable st → reachable (dispatch st ev).

Definition run (st : AppState) (evs : list Event) : AppState :=
  fold_left dispatch evs st.

(** ** The entries of the whole store *)

(** Every stored entry, with its date key and employee id. *)
Definition storeEntries (schedule : MonthlySchedule)
  : list (string * string * ShiftEntry) :=
  '(dateKey, inner) ← map_to_list schedule;
  '(employeeId, shift) ← map_to_list inner;
  [(dateKey, employeeId, shift)].

(** The working assignments (state and branch) that the store holds for
    an employee on a date. *)
Definition workingAssignment (dateKey employeeId : string)
    (entry : string * string * ShiftEntry) : option (string * string) :=
  match entry with
  | (d, e, WorkingShiftObject t b) =>
      if decide (d = dateKey ∧ e = employeeId) then Some (t, b) else None
  | _ => None
  end.

Definition workingAssignments (schedule : MonthlySchedule)
    (dateKey employeeId : string) : list (string * string) :=
  omap (workingAssignment dateKey employeeId) (storeEntries schedule).

(** The effect of an accepted edit on the store: the cell holds the new
    entry and every other cell is as before. *)
Definition storedAs (before after : MonthlySchedule)
    (dateKey employeeId : string) (shift : ShiftEntry) : Prop :=
  entryAt after dateKey employeeId = Some shift
  ∧ ∀ d e, (d, e) ≠ (dateKey, employeeId) → entryAt after d e = entryAt before d e.

(** The head count as the specification words it: the employees of the
    roster, of any type, whose effective shift is a working state. *)
Definition effectiveWorkingCount (st : AppState) (day : Z) : nat :=
  length (filter (λ e, isWorkingValue (getShiftValue st (id e) day) = true)
            (employees st)).

(** What the delete leaves of the inner mapping of one date. *)
Definition dropped (deleted : string) (o : option (gmap string ShiftEntry))
  : option (gmap string ShiftEntry) :=
  inner ← o;
  if (size (delete deleted inner) =? 0)%nat then None
  else Some (delete deleted inner).

(** ** The cells of the table

    What the body of the table computes for the cell of an employee and a
    day: whether the select is disabled, the value it shows and what its
    [onChange] does. *)

(** [dayNames[dayOfWeek] === clinicDayOff], the test of the cell and of
    the column headers. *)
Definition isClinicDayOffColumn (st : AppState) (day : Z) : bool :=
  let dayOfWeek := JS.getDay (currentYear st) (currentMonth st) day in
  bool_decide (dayNames !! dayOfWeek = Some (clinicDayOff st)).

Definition displayShiftValue (st : AppState) (employee : Employee) (day : Z)
  : string :=
  let currentShift := getShiftValue st (id employee) day in
  if isClinicDayOffColumn st day then CLOSED else currentShift.

Definition cellOnChange (st : AppState) (employee : Employee) (day : Z)
    (value : string) : AppState :=
  let isDisabled := isClinicDayOffColumn st day in
  if negb isDisabled then handleShiftChange st (id employee) day value else st.

(** The cell of the count row: [isCountAlert && !isClinicDayOffColumn],
    and the text shown. *)
Definition countAlert (st : AppState) (day : Z) : bool :=
  let count := getDailyStaffCount st day in
  ((count <? 3)%nat || (4 <? count)%nat) && negb (isClinicDayOffColumn st day).

Definition countCellText (st : AppState) (day : Z) : string :=
  if isClinicDayOffColumn st day then CLOSED
  else JS.String_of (Z.of_nat (getDailyStaffCount st day)).

(** A session of adds alone: each draft is typed in and added. *)
Definition addAll (drafts : list NewEmployee) : list Event :=
  drafts ≫= λ draft, [DraftChange draft; AddEmployee].

(** The store of a session has no date with an empty inner mapping. *)
Definition noEmptyDate (s : MonthlySchedule) : Prop :=
  ∀ d inner, s !! d = Some inner → inner ≠ ∅.

(** The test of [handleAddEmployee] on the draft. *)
Definition draftComplete (draft : NewEmployee) : bool :=
  JS.trim_truthy (new_name draft) && JS.trim_truthy (new_position draft)
  && (bool_decide (new_type draft = PartTime)
      || JS.trim_truthy (new_branch draft)).

(** While an employee is edited, the edited copy carries the id under
    edit. *)
Definition editConsistent (st : AppState) : Prop :=
  ∀ i, editingEmployeeId st = Some i → id (editedEmployee st) = i.

(** A modal, with the modals its callbacks capture, has no confirmation
    of a delete. *)
Fixpoint noDeleteIn (m : ModalState) : bool :=
  match m with
  | mkModal _ _ _ c1 c2 _ => noDeleteBy c1 && noDeleteBy c2
  end
with noDeleteBy (a : ModalAction) : bool :=
  match a with
  | NoAction => true
  | CloseModal captured => noDeleteIn captured
  | ResetModal => true
  | ConfirmDelete _ _ => false
  end.

(** The events other than the delete of an employee, the save of an edit
    and the load. *)
Definition keepsRoster (ev : Event) : bool :=
  match ev with
  | DeleteEmployee _ | SaveEdit | Loaded _ => false
  | _ => true
  end.

(** The ids of a roster are those that adds alone give: distinct, and
    each the prefix of its type followed by a number from 1 to the number
    of employees of the type. *)
Definition sameType (t : EmployeeType) (l : list Employee) : list Employee :=
  filter (λ e, type e = t) l.

Definition numbered (l : list Employee) : Prop :=
  NoDup (id <$> l)
  ∧ ∀ e, e ∈ l →
      ∃ k : nat, (1 ≤ k ≤ length (sameType (type e) l))%nat
                 ∧ id e = idPrefix (type e) ++ JS.String_of (Z.of_nat k).

(** ** Sample sessions

    June 2025 starts on a Sunday, the day off of the first render; day 2
    is a Monday. *)

Definition branchA : string := "บึงทับช้าง".
Definition branchB : string := "บัวใหญ่".

Definition partTimer : NewEmployee := mkNewEmployee "P" "พนักงานนวด" "" PartTime.
Definition fullTimer (n b : string) : NewEmployee :=
  mkNewEmployee n "ผู้ช่วยแพทย์" b FullTime.

(** A part-time employee, set to the morning shift while branch A is
    viewed. *)
Definition morningAtA : AppState :=
  run (initialState 2025 5)
    [DraftChange partTimer; AddEmployee; ShiftChange "pte1" 2 MORNING].

(** A full-time employee of branch B on the morning shift, seen from
    branch A. *)
Definition fullTimerOfB : AppState :=
  run (initialState 2025 5)
    [DraftChange (fullTimer "F" branchB); AddEmployee; SelectBranch branchB;
     ShiftChange "emp1" 2 MORNING; SelectBranch branchA].

(** Two adds, the delete of the first employee, and one more add. *)
Definition addDeleteAdd : list Event :=
  [DraftChange (fullTimer "F" branchA); AddEmployee;
   DraftChange (fullTimer "G" branchA); AddEmployee;
   DeleteEmployee "emp1"; Confirm;
   DraftChange (fullTimer "H" branchA); AddEmployee].

(** A stored document with two days for one employee. *)
Definition twoDays : ScheduleDocument :=
  mkDocument (Some [])
    (Some [("emp1", [("2025-06-02", ShiftString MORNING);
                     ("2025-06-03", ShiftString AFTERNOON)])])
    "2025-06".

(** The part-time employee and the full-time employee of the sample
    sessions, and the roster with the part-time employee alone. *)
Definition pte1 : Employee :=
  mkEmployee "pte1" "P" "พนักงานนวด" PART_TIME_POOL PartTime.


Definition partTimerAdded : AppState :=
  run (initialState 2025 5) [DraftChange partTimer; AddEmployee].

(** * Properties *)

(** ** The store *)

Section Store.
Implicit Types (s : MonthlySchedule) (d e : string) (v : ShiftEntry).

Lemma entryAt_empty d e : entryAt ∅ d e = None.
Proof. unfold entryAt. by rewrite lookup_empty. Qed.

Lemma ensureDate_lookup s d :
  ensureDate s d !! d = Some (default ∅ (s !! d)).
Proof.
  unfold ensureDate. destruct (s !! d) as [inner|] eqn:E; simpl.
  - done.
  - by rewrite lookup_insert_eq.
Qed.

Lemma entryAt_ensureDate s d d' e :
  entryAt (ensureDate s d) d' e = entryAt s d' e.
Proof.
  unfold entryAt, ensureDate. destruct (s !! d) as [inner|] eqn:E; [done|].
  destruct (decide (d = d')) as [<-|Hne].
  - rewrite lookup_insert_eq, E. simpl. apply lookup_empty.
  - by rewrite lookup_insert_ne.
Qed.

Lemma assignEntry_ensureDate s d e v :
  assignEntry (ensureDate s d) d e v
  = <[d := <[e := v]> (default ∅ (s !! d))]> (ensureDate s d).
Proof. unfold assignEntry. by rewrite ensureDate_lookup. Qed.

Lemma entryAt_assign_same s d e v :
  entryAt (assignEntry (ensureDate s d) d e v) d e = Some v.
Proof.
  rewrite assignEntry_ensureDate. unfold entryAt.
  rewrite lookup_insert_eq. simpl. apply lookup_insert_eq.
Qed.

Lemma entryAt_assign_other s d e v d' e' :
  (d', e') ≠ (d, e) →
  entryAt (assignEntry (ensureDate s d) d e v) d' e' = entryAt s d' e'.
Proof.
  intros Hne. rewrite assignEntry_ensureDate.
  destruct (decide (d = d')) as [<-|Hd].
  - assert (e ≠ e') as He by congruence.
    unfold entryAt at 1. rewrite lookup_insert_eq. simpl.
    rewrite lookup_insert_ne by done.
    unfold entryAt. destruct (s !! d); [done|]. apply lookup_empty.
  - rewrite <- (entryAt_ensureDate s d d' e').
    unfold entryAt. by rewrite lookup_insert_ne.
Qed.

Lemma assign_storedAs s d e v :
  storedAs s (assignEntry (ensureDate s d) d e v) d e v.
Proof.
  split; [apply entryAt_assign_same|].
  intros d' e' Hne. by apply entryAt_assign_other.
Qed.

End Store.

(** ** Looking an employee up *)

Lemma findEmployee_Some emps i e :
  findEmployee emps i = Some e → e ∈ emps ∧ id e = i.
Proof.
  unfold findEmployee. intros H. apply find_some in H as [Hin Hid].
  split; [by apply list_elem_of_In|]. by apply bool_decide_eq_true in Hid.
Qed.

Lemma findEmployee_None emps i :
  (∀ e, e ∈ emps → id e ≠ i) → findEmployee emps i = None.
Proof.
  intros Hno. unfold findEmployee.
  destruct (find _ emps) as [e|] eqn:E; [|done].
  apply findEmployee_Some in E as [Hin Hid]. by destruct (Hno e Hin).
Qed.

Lemma findEmployee_member emps e :
  e ∈ emps → ∃ e', findEmployee emps (id e) = Some e'.
Proof.
  intros Hin. destruct (findEmployee emps (id e)) as [e'|] eqn:E; [eauto|].
  unfold findEmployee in E.
  apply list_elem_of_In in Hin. apply (find_none _ _ E e) in Hin.
  by apply bool_decide_eq_false in Hin.
Qed.

Lemma findEmployee_NoDup emps e :
  NoDup (id <$> emps) → e ∈ emps → findEmployee emps (id e) = Some e.
Proof.
  induction emps as [|x emps IH]; intros Hnd Hin; [by apply elem_of_nil in Hin|].
  rewrite fmap_cons in Hnd. apply NoDup_cons in Hnd as [Hx Hnd].
  unfold findEmployee; simpl. case_bool_decide as Hid.
  - apply elem_of_cons in Hin as [->|Hin]; [done|].
    destruct Hx. rewrite Hid. apply list_elem_of_fmap. eauto.
  - apply elem_of_cons in Hin as [->|Hin]; [done|]. by apply IH.
Qed.

(** ** The clinic day off *)

Lemma closed_day_name st day :
  isClinicDayOffCell st day = true →
  dayNames !! JS.getDay (currentYear st) (currentMonth st) day
  = Some (clinicDayOff st).
Proof.
  unfold isClinicDayOffCell. intros H. apply andb_true_iff in H as [H _].
  by apply bool_decide_eq_true in H.
Qed.

Lemma handleShiftChange_found st employee employeeId day value :
  findEmployee (employees st) employeeId = Some employee →
  handleShiftChange st employeeId day value
  = let '(schedule, opened) :=
      shiftChangeUpdater st employee employeeId day value (monthlySchedule st) in
    let st' := setMonthlySchedule schedule st in
    match opened with Some m => setModal m st' | None => st' end.
Proof. intros H. unfold handleShiftChange. by rewrite H. Qed.

(** C10: for an employee id that no employee of the roster carries,
    [getShiftValue] returns the empty tag, whatever the day and the viewed
    branch, and [handleShiftChange] leaves the whole state, so the
    schedule store too, as it was. *)
Theorem C10_unknown_employee_total (st : AppState) (employeeId : string)
    (day : Z) (value : string) :
  (∀ e, e ∈ employees st → id e ≠ employeeId) →
  getShiftValue st employeeId day = ""
  ∧ handleShiftChange st employeeId day value = st
  ∧ monthlySchedule (handleShiftChange st employeeId day value)
    = monthlySchedule st.
Proof.
  intros Hno. apply findEmployee_None in Hno.
  unfold getShiftValue, handleShiftChange. by rewrite Hno.
Qed.

(** C2: on a day whose weekday is the configured clinic day off (the
    setting not being the "none" entry), [getShiftValue] returns the
    clinic-closed tag for every employee of the roster, whatever branch is
    viewed and whatever the store holds. *)
Theorem C2_closed_day_overrides (st : AppState) (e : Employee) (day : Z)
    (viewed : string) (stored : MonthlySchedule) :
  e ∈ employees st →
  isClinicDayOffCell st day = true →
  getShiftValue (setSelectedBranch viewed (setMonthlySchedule stored st))
    (id e) day = CLOSED.
Proof.
  intros Hin Hclosed. unfold getShiftValue. simpl.
  destruct (findEmployee_member _ _ Hin) as [e' ->].
  replace (isClinicDayOffCell _ day) with (isClinicDayOffCell st day) by done.
  by rewrite Hclosed.
Qed.

(** C3: on a day whose weekday is the configured clinic day off, an edit
    of an employee of the roster to any value other than the clinic-closed
    tag leaves the store as it was and opens the modal with the title and
    the message of the closed day; the edit to the clinic-closed tag is
    stored as the plain tag and opens no modal. Neither outcome depends on
    the type of the employee or on the entries stored, so the part-time
    rule is never consulted. *)
Theorem C3_closed_day_gate (st : AppState) (e : Employee) (day : Z)
    (value : string) :
  e ∈ employees st →
  isClinicDayOffCell st day = true →
  let st' := handleShiftChange st (id e) day value in
  let dateKey := dateKeyOf (currentYear st) (currentMonth st) day in
  (value ≠ CLOSED →
     monthlySchedule st' = monthlySchedule st
     ∧ isOpen (modal st') = true
     ∧ title (modal st') = "วันหยุดคลินิก"
     ∧ message (modal st')
       = "คลินิกปิดทำการในวัน" ++ clinicDayOff st ++ " ไม่สามารถจัดเวรได้"
     ∧ showCancel (modal st') = false)
  ∧ (value = CLOSED →
     storedAs (monthlySchedule st) (monthlySchedule st') dateKey (id e)
       (ShiftString CLOSED)
     ∧ modal st' = modal st).
Proof.
  intros Hin Hclosed st' dateKey. subst st'.
  destruct (findEmployee_member _ _ Hin) as [e' Hfind].
  rewrite (handleShiftChange_found _ _ _ _ _ Hfind).
  unfold shiftChangeUpdater. rewrite Hclosed.
  split; intros Hv.
  - rewrite bool_decide_eq_false_2 by done. simpl.
    repeat split. by rewrite (closed_day_name _ _ Hclosed).
  - rewrite bool_decide_eq_true_2 by done. simpl.
    split; [apply assign_storedAs|done].
Qed.

(** C4: off a closed day, an edit of a part-time employee to a tag that is
    not a working state (day off, leave, sick or empty) is stored as the
    plain tag, whatever the cell held before and whatever branch is viewed,
    and [getShiftValue] then returns that tag from every viewed branch. *)
Theorem C4_non_working_tag_overrides (st : AppState) (e : Employee) (day : Z)
    (value : string) :
  e ∈ employees st →
  type e = PartTime →
  isClinicDayOffCell st day = false →
  value ∈ [DAY_OFF; LEAVE; SICK; ""] →
  let st' := handleShiftChange st (id e) day value in
  let dateKey := dateKeyOf (currentYear st) (currentMonth st) day in
  storedAs (monthlySchedule st) (monthlySchedule st') dateKey (id e)
    (ShiftString value)
  ∧ ∀ viewed, getShiftValue (setSelectedBranch viewed st') (id e) day = value.
Proof.
  intros Hin Hpt Hopen Hv st' dateKey.
  assert (isWorkingValue value = false) as Hnw.
  { repeat (apply elem_of_cons in Hv as [->|Hv]; [by vm_compute|]).
    by apply elem_of_nil in Hv. }
  destruct (findEmployee_member _ _ Hin) as [e' Hfind].
  pose proof (findEmployee_Some _ _ _ Hfind) as [_ Hid].
  assert (st' = setMonthlySchedule
            (assignEntry (ensureDate (monthlySchedule st) dateKey) dateKey (id e)
               (ShiftString value)) st) as ->.
  { subst st'. rewrite (handleShiftChange_found _ _ _ _ _ Hfind).
    unfold shiftChangeUpdater. rewrite Hopen, Hnw. by destruct (type e'). }
  split; [apply assign_storedAs|].
  intros viewed. unfold getShiftValue. simpl. rewrite Hfind.
  replace (isClinicDayOffCell _ day) with (isClinicDayOffCell st day) by done.
  rewrite Hopen, Hid. fold dateKey. rewrite entryAt_assign_same.
  by destruct (type e').
Qed.

(** ** The part-time rule *)

(** What the loop of [handleShiftChange] decides: it blocks exactly when
    the cell holds a working assignment, whatever branch that names, and
    the list of branches has a branch other than the selected one. *)
Lemma workingElsewhere_Some s d e sel brs b :
  workingElsewhere s d e sel brs = Some b ↔
  (∃ t, entryAt s d (id e) = Some (WorkingShiftObject t b))
  ∧ ∃ br, br ∈ brs ∧ br ≠ sel.
Proof.
  induction brs as [|br brs IH]; simpl.
  - split; [done|]. intros [_ (br & Hbr & _)]. by apply elem_of_nil in Hbr.
  - case_bool_decide as Hsel.
    + rewrite IH. split; intros [Ht (br' & Hin & Hne)]; split; try done.
      * exists br'. split; [by apply elem_of_cons; right|done].
      * exists br'. apply elem_of_cons in Hin as [->|Hin]; [done|by split].
    + destruct (entryAt s d (id e)) as [[str|t b']|] eqn:E.
      * rewrite IH. split; [by intros [[t Ht] _]|by intros [[t Ht] _]].
      * split.
        -- intros [= ->]. split; [eauto|]. exists br.
           split; [apply elem_of_cons; by left|done].
        -- intros [[t' Ht] _]. congruence.
      * rewrite IH. split; [by intros [[t Ht] _]|by intros [[t Ht] _]].
Qed.

Lemma workingElsewhere_None s d e sel brs :
  workingElsewhere s d e sel brs = None ↔
  isWorkingShiftObject (entryAt s d (id e)) = false
  ∨ ∀ br, br ∈ brs → br = sel.
Proof.
  destruct (workingElsewhere s d e sel brs) as [b|] eqn:E.
  - apply workingElsewhere_Some in E as [[t Ht] (br & Hin & Hne)].
    split; [done|]. rewrite Ht. intros [?|Hall]; [done|].
    by destruct Hne; apply Hall.
  - split; [|done]. intros _.
    destruct (entryAt s d (id e)) as [[str|t b]|] eqn:Ent; try by left.
    right. intros br Hin. destruct (decide (br = sel)) as [|Hne]; [done|].
    assert (workingElsewhere s d e sel brs = Some b) as Hs.
    { apply workingElsewhere_Some. rewrite Ent. eauto. }
    congruence.
Qed.

(** The working edit of a part-time employee, as the code decides it. *)
Lemma working_edit_decided st e day value :
  findEmployee (employees st) (id e) = Some e →
  type e = PartTime →
  isClinicDayOffCell st day = false →
  isWorkingValue value = true →
  let st' := handleShiftChange st (id e) day value in
  let dateKey := dateKeyOf (currentYear st) (currentMonth st) day in
  match entryAt (monthlySchedule st) dateKey (id e) with
  | Some (WorkingShiftObject _ b) =>
      if decide (Forall (λ br, br = selectedBranch st) (branches st))
      then storedAs (monthlySchedule st) (monthlySchedule st') dateKey (id e)
             (WorkingShiftObject value (selectedBranch st))
      else monthlySchedule st' = monthlySchedule st
           ∧ modal st' = partTimeModal st b
  | _ => storedAs (monthlySchedule st) (monthlySchedule st') dateKey (id e)
           (WorkingShiftObject value (selectedBranch st))
  end.
Proof.
  intros Hfind Hpt Hopen Hw st' dateKey. subst st'.
  rewrite (handleShiftChange_found _ _ _ _ _ Hfind).
  unfold shiftChangeUpdater. rewrite Hopen, Hpt, Hw. fold dateKey.
  destruct (workingElsewhere _ dateKey e _ _) as [b'|] eqn:E.
  - apply workingElsewhere_Some in E as [[t Ht] (br & Hin & Hne)].
    rewrite Ht. case_decide as Hall; [|done].
    rewrite Forall_forall in Hall. by destruct Hne; apply Hall.
  - apply workingElsewhere_None in E.
    destruct (entryAt _ dateKey (id e)) as [[str|t b]|] eqn:Ent;
      try apply assign_storedAs.
    destruct E as [?|Hall]; [done|].
    rewrite decide_True by (by apply Forall_forall). apply assign_storedAs.
Qed.

(** C1, at the input where the code departs from it: the part-time
    employee already holds the morning shift at branch A, branch A is the
    viewed branch, the day is open, and no other branch holds anything for
    the employee; the edit to the afternoon shift at branch A is blocked,
    the store keeps the morning assignment, and the modal names branch A
    on both sides of its message. *)
Theorem C1_same_branch_edit_blocked :
  let st := morningAtA in
  let st' := handleShiftChange st "pte1" 2 AFTERNOON in
  (type <$> findEmployee (employees st) "pte1") = Some PartTime
  ∧ selectedBranch st = branchA
  ∧ isClinicDayOffCell st 2 = false
  ∧ storeEntries (monthlySchedule st)
    = [("2025-06-02", "pte1", WorkingShiftObject MORNING branchA)]
  ∧ monthlySchedule st' = monthlySchedule st
  ∧ entryAt (monthlySchedule st') "2025-06-02" "pte1"
    ≠ Some (WorkingShiftObject AFTERNOON branchA)
  ∧ modal st' = partTimeModal st branchA.
Proof. vm_compute. repeat split; congruence. Qed.

(** The session of the two branches: with the morning shift held at
    branch A, the afternoon edit while branch B is viewed is blocked and
    names branch A; the cell then reads empty from B and morning from A. *)
Example other_branch_edit_blocked :
  let st := setSelectedBranch branchB morningAtA in
  let st' := handleShiftChange st "pte1" 2 AFTERNOON in
  monthlySchedule st' = monthlySchedule morningAtA
  ∧ modal st' = partTimeModal st branchA
  ∧ getShiftValue st' "pte1" 2 = ""
  ∧ getShiftValue (setSelectedBranch branchA st') "pte1" 2 = MORNING.
Proof. vm_compute. repeat split. Qed.

(** ** Deleting an employee *)

Lemma dropped_idem x o : dropped x (dropped x o) = dropped x o.
Proof.
  destruct o as [inner|]; [|done]. simpl.
  destruct (size (delete x inner) =? 0)%nat eqn:E; [done|]. simpl.
  by rewrite delete_delete_eq, E.
Qed.

Lemma dropEmployeeAt_lookup x (s : MonthlySchedule) k d :
  dropEmployeeAt x s k !! d = if decide (d = k) then dropped x (s !! d) else s !! d.
Proof.
  unfold dropEmployeeAt. case_decide as Hd.
  - subst d. destruct (s !! k) as [inner|] eqn:E; simpl; [|by rewrite E].
    destruct (size (delete x inner) =? 0)%nat.
    + apply lookup_delete_eq.
    + apply lookup_insert_eq.
  - destruct (s !! k) as [inner|]; [|done].
    destruct (size (delete x inner) =? 0)%nat.
    + by rewrite lookup_delete_ne.
    + by rewrite lookup_insert_ne.
Qed.

Lemma fold_dropEmployeeAt_lookup x ks (s : MonthlySchedule) d :
  fold_left (dropEmployeeAt x) ks s !! d
  = if decide (d ∈ ks) then dropped x (s !! d) else s !! d.
Proof.
  revert s. induction ks as [|k ks IH]; intros s; cbn [fold_left].
  - rewrite decide_False; [done|]. apply not_elem_of_nil.
  - rewrite IH, dropEmployeeAt_lookup.
    destruct (decide (d = k)) as [->|Hne].
    + rewrite (decide_True (P := k ∈ k :: ks)) by (apply elem_of_cons; by left).
      case_decide; [apply dropped_idem|done].
    + destruct (decide (d ∈ ks)) as [Hin|Hnin].
      * rewrite decide_True; [done|]. apply elem_of_cons. by right.
      * rewrite decide_False; [done|].
        intros [?|?]%elem_of_cons; done.
Qed.

Lemma deleteUpdater_lookup x (s : MonthlySchedule) d :
  deleteUpdater x s !! d = dropped x (s !! d).
Proof.
  unfold deleteUpdater. rewrite fold_dropEmployeeAt_lookup.
  case_decide as Hin; [done|].
  destruct (s !! d) as [inner|] eqn:E; [|done].
  destruct Hin. apply list_elem_of_fmap. exists (d, inner).
  split; [done|]. by apply elem_of_map_to_list.
Qed.

Lemma size_zero_empty (inner : gmap string ShiftEntry) :
  (size inner =? 0)%nat = true ↔ inner = ∅.
Proof. rewrite Nat.eqb_eq. apply map_size_empty_iff. Qed.

(** C6: the confirmed delete of an employee id leaves in the roster the
    employees with another id, in their order; no date of the store holds
    an entry for the deleted id any more; a date whose inner mapping is
    empty once the entry is gone is removed from the store, and any other
    date keeps its inner mapping less that entry; the entries of the other
    employee ids are as before. *)
Theorem C6_delete_cascades (st : AppState) (deleted : string) :
  let st' := confirmedDelete st deleted in
  employees st' = filter (λ emp, id emp ≠ deleted) (employees st)
  ∧ (∀ emp, emp ∈ employees st' → id emp ≠ deleted)
  ∧ (∀ dateKey, entryAt (monthlySchedule st') dateKey deleted = None)
  ∧ (∀ dateKey inner,
       monthlySchedule st !! dateKey = Some inner →
       monthlySchedule st' !! dateKey
       = if decide (delete deleted inner = ∅) then None
         else Some (delete deleted inner))
  ∧ (∀ dateKey inner, monthlySchedule st' !! dateKey = Some inner → inner ≠ ∅)
  ∧ (∀ dateKey other,
       other ≠ deleted →
       entryAt (monthlySchedule st') dateKey other
       = entryAt (monthlySchedule st) dateKey other).
Proof.
  intros st'. subst st'. unfold confirmedDelete, clickConfirm. simpl.
  set (s := monthlySchedule st).
  assert (∀ d, deleteUpdater deleted s !! d = dropped deleted (s !! d)) as Hlk
    by (intros d; apply deleteUpdater_lookup).
  split; [done|]. split; [|split; [|split; [|split]]].
  - intros emp Hin. by apply list_elem_of_filter in Hin as [Hne _].
  - intros d. unfold entryAt. rewrite Hlk.
    destruct (s !! d) as [inner|]; [|done]. simpl.
    destruct (size (delete deleted inner) =? 0)%nat; [done|]. simpl.
    apply lookup_delete_eq.
  - intros d inner Hd. rewrite Hlk, Hd. simpl.
    destruct (size (delete deleted inner) =? 0)%nat eqn:E.
    + apply size_zero_empty in E. by rewrite decide_True.
    + rewrite decide_False; [done|]. intros Hempty.
      apply size_zero_empty in Hempty. congruence.
  - intros d inner. rewrite Hlk.
    destruct (s !! d) as [inner0|]; [|done]. simpl.
    destruct (size (delete deleted inner0) =? 0)%nat eqn:E; [done|].
    intros [= <-] Hempty. apply size_zero_empty in Hempty. congruence.
  - intros d other Hne. unfold entryAt. rewrite Hlk.
    destruct (s !! d) as [inner|]; [|done]. simpl.
    destruct (size (delete deleted inner) =? 0)%nat eqn:E; simpl.
    + apply size_zero_empty in E.
      rewrite <- (lookup_delete_ne inner deleted other) by done.
      rewrite E. by rewrite lookup_empty.
    + by rewrite lookup_delete_ne.
Qed.

(** ** Loading *)

Lemma loadShift_keys date empId (s : MonthlySchedule) entry :
  (∀ d, is_Some (s !! d) → d = date) →
  ∀ d, is_Some (loadShift date empId s entry !! d) → d = date.
Proof.
  intros Hs d. destruct entry as [day shift]. unfold loadShift.
  rewrite assignEntry_ensureDate.
  destruct (decide (date = d)) as [<-|Hne]; [done|].
  rewrite lookup_insert_ne by done. unfold ensureDate.
  destruct (s !! date); [apply Hs|].
  rewrite lookup_insert_ne by done. apply Hs.
Qed.

Lemma loadDays_keys date (s : MonthlySchedule) entry :
  (∀ d, is_Some (s !! d) → d = date) →
  ∀ d, is_Some (loadDays date s entry !! d) → d = date.
Proof.
  destruct entry as [empId days]. unfold loadDays.
  revert s. induction days as [|x days IH]; intros s Hs; simpl; [done|].
  apply IH. by apply loadShift_keys.
Qed.

(** Whatever day keys the document has, the decoded store has no date key
    but the [date] field of the document. *)
Lemma decodeSchedule_keys latest d :
  is_Some (decodeSchedule latest !! d) → d = doc_date latest.
Proof.
  unfold decodeSchedule. destruct (doc_schedule latest) as [entries|].
  - assert (∀ (s : MonthlySchedule),
              (∀ d, is_Some (s !! d) → d = doc_date latest) →
              ∀ d, is_Some (fold_left (loadDays (doc_date latest)) entries s !! d)
                   → d = doc_date latest) as Hfold.
    { induction entries as [|x entries IH]; intros s Hs; simpl; [done|].
      apply IH. by apply loadDays_keys. }
    apply Hfold. intros d'. rewrite lookup_empty. by intros [? ?].
  - rewrite lookup_empty. by intros [? ?].
Qed.

(** The roster after the load is the employee list of the first document. *)
Lemma load_roster latest rest st l :
  doc_employees latest = Some l →
  employees (loadScheduleFromFirestore (latest :: rest) st) = l.
Proof. intros H. simpl. by rewrite H. Qed.

(** C9, at the input where the code departs from it: the first stored
    document holds, for employee emp1, the morning shift under the day key
    2025-06-02 and the afternoon shift under 2025-06-03, and its date field
    is 2025-06; after the load the store has no entry at either day key,
    and its one entry, under the key 2025-06, is the afternoon shift. *)
Theorem C9_load_drops_day_keys :
  let st' := loadScheduleFromFirestore [twoDays] (initialState 2025 5) in
  employees st' = []
  ∧ entryAt (monthlySchedule st') "2025-06-02" "emp1" = None
  ∧ entryAt (monthlySchedule st') "2025-06-03" "emp1" = None
  ∧ storeEntries (monthlySchedule st')
    = [("2025-06", "emp1", ShiftString AFTERNOON)].
Proof. vm_compute. repeat split. Qed.

(** ** One entry per date and employee *)

Lemma elem_of_storeEntries (s : MonthlySchedule) d e v :
  (d, e, v) ∈ storeEntries s ↔ entryAt s d e = Some v.
Proof.
  unfold storeEntries, entryAt. rewrite list_elem_of_bind. split.
  - intros ([d' inner] & Hin & Houter).
    apply list_elem_of_bind in Hin as ([e' v'] & Hin & Hinner).
    apply list_elem_of_singleton in Hin as [= -> -> ->].
    apply elem_of_map_to_list in Houter, Hinner. by rewrite Houter.
  - destruct (s !! d) as [inner|] eqn:E; [|done]. simpl. intros Hv.
    exists (d, inner). split; [|by apply elem_of_map_to_list].
    apply list_elem_of_bind. exists (e, v).
    split; [apply list_elem_of_singleton; done|by apply elem_of_map_to_list].
Qed.

Lemma NoDup_storeEntries (s : MonthlySchedule) : NoDup (storeEntries s).
Proof.
  unfold storeEntries. apply NoDup_bind; [..|apply NoDup_map_to_list].
  - intros [d1 i1] [d2 i2] [[d e] v] H1 H2 Hy1 Hy2.
    apply list_elem_of_bind in Hy1 as ([e1 v1] & Hy1 & _).
    apply list_elem_of_bind in Hy2 as ([e2 v2] & Hy2 & _).
    apply list_elem_of_singleton in Hy1 as [= <- _ _].
    apply list_elem_of_singleton in Hy2 as [= <- _ _].
    apply elem_of_map_to_list in H1, H2. congruence.
  - intros [d inner] _. apply NoDup_bind; [..|apply NoDup_map_to_list].
    + intros [e1 v1] [e2 v2] y _ _ Hy1 Hy2.
      apply list_elem_of_singleton in Hy1, Hy2. congruence.
    + intros [e v] _. apply NoDup_singleton.
Qed.

Lemma omap_at_most_one {X Y : Type} (f : X → option Y) (l : list X) :
  NoDup l →
  (∀ x y, x ∈ l → y ∈ l → is_Some (f x) → is_Some (f y) → x = y) →
  (length (omap f l) ≤ 1)%nat.
Proof.
  induction l as [|x l IH]; intros Hnd Hone; csimpl; [by apply Nat.le_0_l|].
  apply NoDup_cons in Hnd as [Hx Hnd].
  assert (length (omap f l) ≤ 1)%nat as Hl.
  { apply IH; [done|]. intros y z Hy Hz. apply Hone; by apply elem_of_cons; right. }
  destruct (f x) as [y|] eqn:E; csimpl; [|done].
  destruct (omap f l) as [|z rest] eqn:El; [done|].
  assert (z ∈ omap f l) as Hz by (rewrite El; apply elem_of_cons; by left).
  apply list_elem_of_omap in Hz as (x' & Hx' & Hfx').
  destruct Hx. replace x with x'; [done|]. symmetry.
  apply Hone; [apply elem_of_cons; by left|apply elem_of_cons; by right|..];
    by eexists.
Qed.

Lemma workingAssignment_Some dateKey employeeId entry w :
  workingAssignment dateKey employeeId entry = Some w ↔
  entry = (dateKey, employeeId, WorkingShiftObject w.1 w.2).
Proof.
  destruct entry as [[d e] [str|t b]], w as [t' b']; simpl; [done|].
  case_decide as H.
  - destruct H as [-> ->]. split; congruence.
  - split; [done|]. intros [= -> -> _ _]. by destruct H.
Qed.

Lemma workingAssignments_at_most_one (s : MonthlySchedule) dateKey employeeId :
  (length (workingAssignments s dateKey employeeId) ≤ 1)%nat.
Proof.
  apply omap_at_most_one; [apply NoDup_storeEntries|].
  intros [[d1 e1] v1] [[d2 e2] v2] H1 H2 [w1 Hw1] [w2 Hw2].
  apply workingAssignment_Some in Hw1 as [= -> -> ->].
  apply workingAssignment_Some in Hw2 as [= -> -> ->].
  apply elem_of_storeEntries in H1, H2. congruence.
Qed.

Lemma elem_of_workingAssignments (s : MonthlySchedule) dateKey employeeId t b :
  (t, b) ∈ workingAssignments s dateKey employeeId ↔
  entryAt s dateKey employeeId = Some (WorkingShiftObject t b).
Proof.
  unfold workingAssignments. rewrite list_elem_of_omap. split.
  - intros (entry & Hin & Hw). apply workingAssignment_Some in Hw as ->.
    by apply elem_of_storeEntries in Hin.
  - intros H. exists (dateKey, employeeId, WorkingShiftObject t b).
    split; [by apply elem_of_storeEntries|]. by apply workingAssignment_Some.
Qed.

(** C5: in every state that the events of a session reach from the first
    render, for every part-time employee of the roster and every date key,
    the entries of the whole store include at most one working assignment
    for that employee on that date, and so at most one branch is named. *)
Theorem C5_one_working_assignment (st : AppState) (e : Employee)
    (dateKey : string) :
  reachable st →
  e ∈ employees st →
  type e = PartTime →
  (length (workingAssignments (monthlySchedule st) dateKey (id e)) ≤ 1)%nat
  ∧ ∀ t1 b1 t2 b2,
      (t1, b1) ∈ workingAssignments (monthlySchedule st) dateKey (id e) →
      (t2, b2) ∈ workingAssignments (monthlySchedule st) dateKey (id e) →
      b1 = b2.
Proof.
  intros _ _ _. split; [apply workingAssignments_at_most_one|].
  intros t1 b1 t2 b2 H1 H2.
  apply elem_of_workingAssignments in H1, H2. congruence.
Qed.

(** ** The daily staff count *)

(** The employees that one round of the count adds: a full-time employee
    of the selected branch with a plain working tag, or a part-time
    employee with a working assignment at the selected branch. *)
Lemma fold_count (st : AppState) (day : Z) (P : Employee → Prop)
    `{!∀ e, Decision (P e)} (l : list Employee) (n : nat) :
  (∀ e m, e ∈ l →
     countEmployee st day m e = if decide (P e) then S m else m) →
  fold_left (countEmployee st day) l n = (n + length (filter P l))%nat.
Proof.
  revert n. induction l as [|e l IH]; intros n Hstep; cbn [fold_left].
  - rewrite filter_nil. simpl. lia.
  - rewrite IH by (intros e' m Hin; apply Hstep; apply elem_of_cons; by right).
    rewrite (Hstep e n) by (apply elem_of_cons; by left).
    rewrite filter_cons. case_decide; simpl; lia.
Qed.

Lemma count_closed (st : AppState) (day : Z) (l : list Employee) (n : nat) :
  isClinicDayOffCell st day = true →
  fold_left (countEmployee st day) l n = n.
Proof.
  intros Hclosed. revert n. induction l as [|e l IH]; intros n; simpl; [done|].
  rewrite IH. unfold countEmployee. by rewrite Hclosed.
Qed.

Lemma isWorkingValue_empty : isWorkingValue "" = false.
Proof. by vm_compute. Qed.

(** C7, as the code has it: the count is 0 on a closed day, whatever the
    store holds; on an open day, when the ids of the roster are distinct
    and no part-time employee has a plain morning or afternoon tag stored
    on that date, the count is the number of employees shown at the viewed
    branch (the part-time employees and the full-time employees of that
    branch) whose [getShiftValue] is a working state. *)
Theorem C7_count_of_displayed (st : AppState) (day : Z) :
  (isClinicDayOffCell st day = true → getDailyStaffCount st day = 0%nat)
  ∧ (isClinicDayOffCell st day = false →
     NoDup (id <$> employees st) →
     (∀ e s, e ∈ employees st → type e = PartTime →
        entryAt (monthlySchedule st)
          (dateKeyOf (currentYear st) (currentMonth st) day) (id e)
        = Some (ShiftString s) →
        isWorkingValue s = false) →
     getDailyStaffCount st day
     = length (filter (λ e, isWorkingValue (getShiftValue st (id e) day) = true)
                 (displayedEmployees st))).
Proof.
  split.
  - intros Hclosed. by apply count_closed.
  - intros Hopen Hnd Hplain. unfold getDailyStaffCount, displayedEmployees.
    rewrite list_filter_filter.
    rewrite (fold_count st day
               (λ e, isWorkingValue (getShiftValue st (id e) day) = true
                     ∧ (type e = PartTime ∨ branch e = selectedBranch st)));
      [done|].
    intros e m Hin. unfold countEmployee, getShiftValue.
    rewrite (findEmployee_NoDup _ _ Hnd Hin), Hopen.
    destruct (type e) eqn:Ht.
    + case_bool_decide as Hb.
      * destruct (entryAt _ _ (id e)) as [[s|t b]|];
          [destruct (isWorkingValue s) eqn:Hs|..].
        -- rewrite decide_True; [done|]. split; [done|by right].
        -- rewrite decide_False; [done|]. intros [? _]. congruence.
        -- rewrite decide_False; [done|]. rewrite isWorkingValue_empty.
           by intros [? _].
        -- rewrite decide_False; [done|]. rewrite isWorkingValue_empty.
           by intros [? _].
      * rewrite decide_False; [done|]. intros [_ [?|?]]; done.
    + destruct (entryAt _ _ (id e)) as [[s|t b]|] eqn:Ent.
      * rewrite decide_False; [done|].
        rewrite (Hplain e s Hin Ht Ent). by intros [? _].
      * case_bool_decide as Hb; cbn [andb].
        -- destruct (isWorkingValue t) eqn:Hw.
           ++ rewrite decide_True; [done|]. split; [done|by left].
           ++ rewrite decide_False; [done|]. intros [? _]. congruence.
        -- rewrite decide_False; [done|]. rewrite isWorkingValue_empty.
           by intros [? _].
      * rewrite decide_False; [done|]. rewrite isWorkingValue_empty.
        by intros [? _].
Qed.

(** C7 as stated fails: with a full-time employee of branch B on the
    morning shift and branch A viewed on an open day, [getShiftValue]
    gives the employee a working state, yet the count leaves the employee
    out. *)
Lemma C7_full_timer_of_other_branch :
  isClinicDayOffCell fullTimerOfB 2 = false
  ∧ selectedBranch fullTimerOfB = branchA
  ∧ getShiftValue fullTimerOfB "emp1" 2 = MORNING
  ∧ effectiveWorkingCount fullTimerOfB 2 = 1%nat
  ∧ getDailyStaffCount fullTimerOfB 2 = 0%nat
  ∧ getDailyStaffCount fullTimerOfB 2 ≠ effectiveWorkingCount fullTimerOfB 2.
Proof. vm_compute. repeat split; congruence. Qed.

(** ** Adding an employee *)

(** C8: the add is refused, the state unchanged but for the modal it
    opens, when the name or the position of the draft is empty, or the
    type is full-time and the branch is empty; with a name and a position
    that are not blank, and a branch that is not blank for a full-time
    draft, the roster gains one employee at its end, whose id is the prefix
    of the type followed by the number of employees of that type plus one,
    and whose branch is the pool entry when part-time; and some session of
    adds and a confirmed delete, followed by an add of the same type,
    leaves two different roster entries with one id. *)
Theorem C8_add_employee :
  (∀ st,
     let draft := newEmployee st in
     new_name draft = "" ∨ new_position draft = ""
     ∨ (new_type draft = FullTime ∧ new_branch draft = "") →
     handleAddEmployee st = setModal (incompleteModal st) st
     ∧ employees (handleAddEmployee st) = employees st
     ∧ monthlySchedule (handleAddEmployee st) = monthlySchedule st
     ∧ isOpen (modal (handleAddEmployee st)) = true)
  ∧ (∀ st,
     let draft := newEmployee st in
     JS.trim_truthy (new_name draft) = true →
     JS.trim_truthy (new_position draft) = true →
     new_type draft = PartTime ∨ JS.trim_truthy (new_branch draft) = true →
     employees (handleAddEmployee st)
     = (employees st
       ++ [mkEmployee
             (idPrefix (new_type draft)
              ++ JS.String_of
                   (Z.of_nat
                      (length (filter (λ e, type e = new_type draft)
                                 (employees st))) + 1))
             (new_name draft) (new_position draft)
             (if decide (new_type draft = PartTime) then PART_TIME_POOL
              else new_branch draft)
             (new_type draft)])%list
     ∧ monthlySchedule (handleAddEmployee st) = monthlySchedule st)
  ∧ (∃ (i j : nat) (e1 e2 : Employee),
       let st := run (initialState 2025 5) addDeleteAdd in
       i ≠ j
       ∧ employees st !! i = Some e1
       ∧ employees st !! j = Some e2
       ∧ e1 ≠ e2
       ∧ id e1 = id e2).
Proof.
  split; [|split].
  - intros st draft Hbad.
    assert (handleAddEmployee st = setModal (incompleteModal st) st) as ->.
    { unfold handleAddEmployee. fold draft.
      destruct Hbad as [->|[->|[-> ->]]]; simpl; try done.
      - by rewrite andb_false_r.
      - by rewrite andb_false_r. }
    done.
  - intros st draft Hname Hpos Hbranch. unfold handleAddEmployee. fold draft.
    rewrite Hname, Hpos. simpl.
    assert (bool_decide (new_type draft = PartTime)
            || JS.trim_truthy (new_branch draft) = true) as ->.
    { destruct Hbranch as [->| ->]; [done|apply orb_true_r]. }
    simpl. split; [|done]. by destruct (new_type draft).
  - exists 0%nat, 1%nat. eexists _, _. vm_compute. repeat split; congruence.
Qed.

(** ** The sample sessions, evaluated *)

Lemma reachable_run st evs : reachable st → reachable (run st evs).
Proof.
  revert st. induction evs as [|ev evs IH]; intros st Hst; [done|].
  apply IH. by constructor.
Qed.

Lemma employees_morningAtA :
  employees morningAtA
  = [mkEmployee "pte1" "P" "พนักงานนวด" PART_TIME_POOL PartTime].
Proof. by vm_compute. Qed.

Lemma pte1_member :
  mkEmployee "pte1" "P" "พนักงานนวด" PART_TIME_POOL PartTime
  ∈ employees morningAtA.
Proof. rewrite employees_morningAtA. apply list_elem_of_singleton. reflexivity. Defined.

Lemma C10_unknown_employee_total_witness :
  (∀ e, e ∈ employees morningAtA → id e ≠ "emp9")
  ∧ getShiftValue morningAtA "emp9" 2 = ""
  ∧ handleShiftChange morningAtA "emp9" 2 MORNING = morningAtA.
Proof.
  assert (∀ e, e ∈ employees morningAtA → id e ≠ "emp9") as Hno.
  { intros e Hin. rewrite employees_morningAtA in Hin.
    apply list_elem_of_singleton in Hin. rewrite Hin. vm_compute. congruence. }
  split; [exact Hno|].
  destruct (C10_unknown_employee_total morningAtA "emp9" 2 MORNING Hno)
    as (Hget & Hset & _).
  split; [exact Hget|exact Hset].
Defined.

Lemma C2_closed_day_overrides_witness :
  isClinicDayOffCell morningAtA 1 = true
  ∧ getShiftValue
      (setSelectedBranch branchB
         (setMonthlySchedule
            {[ "2025-06-01" := {[ "pte1" := WorkingShiftObject MORNING branchB ]} ]}
            morningAtA))
      "pte1" 1 = CLOSED.
Proof.
  assert (isClinicDayOffCell morningAtA 1 = true) as Hclosed
    by (vm_compute; reflexivity).
  split; [exact Hclosed|].
  exact (C2_closed_day_overrides morningAtA _ 1 branchB _ pte1_member Hclosed).
Defined.

Lemma C3_closed_day_gate_witness :
  isClinicDayOffCell morningAtA 1 = true
  ∧ monthlySchedule (handleShiftChange morningAtA "pte1" 1 MORNING)
    = monthlySchedule morningAtA
  ∧ entryAt (monthlySchedule (handleShiftChange morningAtA "pte1" 1 CLOSED))
      "2025-06-01" "pte1" = Some (ShiftString CLOSED).
Proof.
  assert (isClinicDayOffCell morningAtA 1 = true) as Hclosed
    by (vm_compute; reflexivity).
  split; [exact Hclosed|]. split.
  - destruct (C3_closed_day_gate morningAtA _ 1 MORNING pte1_member Hclosed)
      as [Hrej _].
    apply Hrej. vm_compute. congruence.
  - destruct (C3_closed_day_gate morningAtA _ 1 CLOSED pte1_member Hclosed)
      as [_ Hacc].
    destruct (Hacc eq_refl) as [[Hstored _] _]. exact Hstored.
Defined.

Lemma C4_non_working_tag_overrides_witness :
  isClinicDayOffCell morningAtA 2 = false
  ∧ entryAt (monthlySchedule morningAtA) "2025-06-02" "pte1"
    = Some (WorkingShiftObject MORNING branchA)
  ∧ entryAt (monthlySchedule (handleShiftChange morningAtA "pte1" 2 SICK))
      "2025-06-02" "pte1" = Some (ShiftString SICK)
  ∧ getShiftValue
      (setSelectedBranch branchB (handleShiftChange morningAtA "pte1" 2 SICK))
      "pte1" 2 = SICK.
Proof.
  assert (isClinicDayOffCell morningAtA 2 = false) as Hopen
    by (vm_compute; reflexivity).
  assert (SICK ∈ [DAY_OFF; LEAVE; SICK; ""]) as Htag.
  { apply list_elem_of_In. vm_compute. right. right. left. reflexivity. }
  split; [exact Hopen|]. split; [vm_compute; reflexivity|].
  destruct (C4_non_working_tag_overrides morningAtA _ 2 SICK pte1_member
              eq_refl Hopen Htag) as [[Hstored _] Hread].
  split; [exact Hstored|exact (Hread branchB)].
Defined.

Lemma C5_one_working_assignment_witness :
  reachable morningAtA
  ∧ workingAssignments (monthlySchedule morningAtA) "2025-06-02" "pte1"
    = [(MORNING, branchA)]
  ∧ (length (workingAssignments (monthlySchedule morningAtA) "2025-06-02" "pte1")
     ≤ 1)%nat.
Proof.
  assert (reachable morningAtA) as Hreach
    by (apply reachable_run; constructor).
  split; [exact Hreach|]. split; [vm_compute; reflexivity|].
  destruct (C5_one_working_assignment morningAtA _ "2025-06-02" Hreach
              pte1_member eq_refl) as [Hlen _].
  exact Hlen.
Defined.

Lemma C7_count_of_displayed_witness :
  isClinicDayOffCell morningAtA 2 = false
  ∧ NoDup (id <$> employees morningAtA)
  ∧ getDailyStaffCount morningAtA 2 = 1%nat
  ∧ getDailyStaffCount morningAtA 2
    = length (filter (λ e, isWorkingValue (getShiftValue morningAtA (id e) 2) = true)
                (displayedEmployees morningAtA))
  ∧ getDailyStaffCount morningAtA 1 = 0%nat.
Proof.
  assert (isClinicDayOffCell morningAtA 2 = false) as Hopen
    by (vm_compute; reflexivity).
  assert (isClinicDayOffCell morningAtA 1 = true) as Hclosed
    by (vm_compute; reflexivity).
  assert (NoDup (id <$> employees morningAtA)) as Hnd.
  { rewrite employees_morningAtA. apply NoDup_singleton. }
  split; [exact Hopen|]. split; [exact Hnd|]. split; [vm_compute; reflexivity|].
  split.
  - destruct (C7_count_of_displayed morningAtA 2) as [_ Hcount].
    apply (Hcount Hopen Hnd). intros e s Hin _ Hentry.
    rewrite employees_morningAtA in Hin. apply list_elem_of_singleton in Hin.
    rewrite Hin in Hentry. vm_compute in Hentry. congruence.
  - destruct (C7_count_of_displayed morningAtA 1) as [Hzero _].
    exact (Hzero Hclosed).
Defined.

Lemma C8_add_employee_witness :
  employees (handleAddEmployee (initialState 2025 5)) = []
  ∧ (id <$> employees
       (handleAddEmployee (setNewEmployee partTimer (initialState 2025 5))))
    = ["pte1"].
Proof.
  destruct C8_add_employee as (Hrej & Hacc & _). split.
  - destruct (Hrej (initialState 2025 5)) as (_ & Hsame & _).
    + left. reflexivity.
    + exact Hsame.
  - rewrite (proj1 (Hacc (setNewEmployee partTimer (initialState 2025 5))
                      eq_refl eq_refl (or_introl eq_refl))).
    vm_compute. reflexivity.
Defined.

(** * Further properties of the handlers *)

(** ** What an edit of a shift touches *)

Lemma setters_eta st : setModal (modal st) (setMonthlySchedule (monthlySchedule st) st) = st.
Proof. by destruct st. Qed.

(** The two outcomes of the updater: it blocks, keeps the schedule and
    opens a modal whose confirmation closes it; or it assigns one entry to
    the cell and opens nothing. *)
Lemma shiftChangeUpdater_cases st employee employeeId day value prev :
  let dateKey := dateKeyOf (currentYear st) (currentMonth st) day in
  (∃ t msg,
     shiftChangeUpdater st employee employeeId day value prev
     = (prev, Some (mkModal true t msg (CloseModal (modal st)) NoAction false)))
  ∨ (∃ v,
     shiftChangeUpdater st employee employeeId day value prev
     = (assignEntry (ensureDate prev dateKey) dateKey employeeId v, None)).
Proof.
  intros dateKey. unfold shiftChangeUpdater. fold dateKey.
  destruct (isClinicDayOffCell st day).
  - case_bool_decide; simpl; [right|left]; eauto.
  - destruct (type employee); [right; eauto|].
    destruct (isWorkingValue value); [|right; eauto].
    destruct (workingElsewhere _ _ _ _ _); [left|right]; eauto.
Qed.

Lemma handleShiftChange_cases st employeeId day value :
  let dateKey := dateKeyOf (currentYear st) (currentMonth st) day in
  let st' := handleShiftChange st employeeId day value in
  st' = st
  ∨ (∃ t msg,
       st' = setModal (mkModal true t msg (CloseModal (modal st)) NoAction false) st)
  ∨ (∃ v,
       st' = setMonthlySchedule
               (assignEntry (ensureDate (monthlySchedule st) dateKey) dateKey
                  employeeId v) st).
Proof.
  intros dateKey st'. subst st'. unfold handleShiftChange.
  destruct (findEmployee (employees st) employeeId) as [e|]; [|by left].
  destruct (shiftChangeUpdater_cases st e employeeId day value (monthlySchedule st))
    as [(t & msg & ->)|(v & ->)]; right; [left|right].
  - exists t, msg. by destruct st.
  - by exists v.
Qed.

(** X1: an edit of a shift changes nothing of the state but the schedule
    and the modal, and in the schedule nothing but the cell of the edited
    employee on the edited date, whether the edit is accepted or blocked. *)
Theorem shift_edit_touches_one_cell (st : AppState) (employeeId : string)
    (day : Z) (value : string) :
  let st' := handleShiftChange st employeeId day value in
  let dateKey := dateKeyOf (currentYear st) (currentMonth st) day in
  employees st' = employees st
  ∧ branches st' = branches st
  ∧ (currentYear st', currentMonth st') = (currentYear st, currentMonth st)
  ∧ selectedBranch st' = selectedBranch st
  ∧ clinicDayOff st' = clinicDayOff st
  ∧ newEmployee st' = newEmployee st
  ∧ (editingEmployeeId st', editedEmployee st')
    = (editingEmployeeId st, editedEmployee st)
  ∧ ∀ d e, (d, e) ≠ (dateKey, employeeId) →
      entryAt (monthlySchedule st') d e = entryAt (monthlySchedule st) d e.
Proof.
  intros st' dateKey. subst st'.
  destruct (handleShiftChange_cases st employeeId day value)
    as [->|[(t & msg & ->)|(v & ->)]]; simpl; repeat split; try done.
  intros d e Hne. by apply entryAt_assign_other.
Qed.

(** ** Reading back what was set *)

Lemma getShiftValue_setSelectedBranch_closed st viewed day :
  isClinicDayOffCell (setSelectedBranch viewed st) day = isClinicDayOffCell st day.
Proof. done. Qed.





(** X4: a part-time employee whose cell holds no plain morning or afternoon
    tag shows a working state in the table of at most one branch. *)
Theorem part_timer_works_in_one_table (st : AppState) (e : Employee) (day : Z)
    (b1 b2 : string) :
  findEmployee (employees st) (id e) = Some e →
  type e = PartTime →
  (∀ s, entryAt (monthlySchedule st)
          (dateKeyOf (currentYear st) (currentMonth st) day) (id e)
        = Some (ShiftString s) → isWorkingValue s = false) →
  isWorkingValue (getShiftValue (setSelectedBranch b1 st) (id e) day) = true →
  isWorkingValue (getShiftValue (setSelectedBranch b2 st) (id e) day) = true →
  b1 = b2.
Proof.
  intros Hfind Hpt Hplain. unfold getShiftValue. simpl. rewrite Hfind.
  replace (isClinicDayOffCell (setSelectedBranch b1 st) day)
    with (isClinicDayOffCell st day) by done.
  replace (isClinicDayOffCell (setSelectedBranch b2 st) day)
    with (isClinicDayOffCell st day) by done.
  destruct (isClinicDayOffCell st day); [by vm_compute|].
  rewrite Hpt.
  destruct (entryAt _ _ (id e)) as [[s|t b]|] eqn:Ent.
  - rewrite (Hplain s eq_refl). done.
  - do 2 case_bool_decide; try (rewrite isWorkingValue_empty; done). congruence.
  - by rewrite isWorkingValue_empty.
Qed.


(** ** What every session keeps *)

Lemma handleShiftChange_fields st employeeId day value :
  branches (handleShiftChange st employeeId day value) = branches st
  ∧ editingEmployeeId (handleShiftChange st employeeId day value)
    = editingEmployeeId st
  ∧ editedEmployee (handleShiftChange st employeeId day value)
    = editedEmployee st.
Proof.
  destruct (handleShiftChange_cases st employeeId day value)
    as [->|[(t & msg & ->)|(v & ->)]]; done.
Qed.

Lemma runModalAction_fields a st :
  branches (runModalAction a st) = branches st
  ∧ editingEmployeeId (runModalAction a st) = editingEmployeeId st
  ∧ editedEmployee (runModalAction a st) = editedEmployee st.
Proof. destruct a as [|[]| |]; done. Qed.

Lemma handleAddEmployee_fields st :
  branches (handleAddEmployee st) = branches st
  ∧ editingEmployeeId (handleAddEmployee st) = editingEmployeeId st
  ∧ editedEmployee (handleAddEmployee st) = editedEmployee st
  ∧ monthlySchedule (handleAddEmployee st) = monthlySchedule st.
Proof. unfold handleAddEmployee. by destruct (_ && _). Qed.

Lemma loadScheduleFromFirestore_fields schedules st :
  branches (loadScheduleFromFirestore schedules st) = branches st
  ∧ editingEmployeeId (loadScheduleFromFirestore schedules st)
    = editingEmployeeId st
  ∧ editedEmployee (loadScheduleFromFirestore schedules st) = editedEmployee st.
Proof. by destruct schedules. Qed.





Lemma noEmptyDate_assign s d e v :
  noEmptyDate s → noEmptyDate (assignEntry (ensureDate s d) d e v).
Proof.
  intros Hs d' inner. rewrite assignEntry_ensureDate.
  destruct (decide (d = d')) as [<-|Hne].
  - rewrite lookup_insert_eq. intros [= <-]. apply insert_non_empty.
  - rewrite lookup_insert_ne by done. unfold ensureDate.
    destruct (s !! d) eqn:E; [apply Hs|].
    rewrite lookup_insert_ne by done. apply Hs.
Qed.

Lemma noEmptyDate_delete x s : noEmptyDate (deleteUpdater x s).
Proof.
  intros d inner. rewrite deleteUpdater_lookup.
  destruct (s !! d) as [inner0|]; [|done]. simpl.
  destruct (size (delete x inner0) =? 0)%nat eqn:E; [done|].
  intros [= <-] Hempty. apply size_zero_empty in Hempty. congruence.
Qed.

Lemma noEmptyDate_decode latest : noEmptyDate (decodeSchedule latest).
Proof.
  unfold decodeSchedule. destruct (doc_schedule latest) as [entries|];
    [|intros d inner; by rewrite lookup_empty].
  assert (∀ s, noEmptyDate s →
            noEmptyDate (fold_left (loadDays (doc_date latest)) entries s))
    as Hfold.
  { induction entries as [|[empId days] entries IH]; intros s Hs; [done|].
    cbn [fold_left]. apply IH. unfold loadDays.
    clear IH. revert s Hs.
    induction days as [|[day shift] days IHd]; intros s Hs; [done|].
    cbn [fold_left]. apply IHd. by apply noEmptyDate_assign. }
  apply Hfold. intros d inner. by rewrite lookup_empty.
Qed.

Lemma noEmptyDate_dispatch st ev :
  noEmptyDate (monthlySchedule st) → noEmptyDate (monthlySchedule (dispatch st ev)).
Proof.
  intros Hst. destruct ev; simpl; try done.
  - destruct (handleShiftChange_cases st employeeId day value)
      as [->|[(t & msg & ->)|(v & ->)]]; try done.
    simpl. by apply noEmptyDate_assign.
  - by rewrite (proj2 (proj2 (proj2 (handleAddEmployee_fields st)))).
  - unfold clickConfirm. destruct (onConfirm (modal st)) as [|[]| |]; try done.
    simpl. apply noEmptyDate_delete.
  - unfold clickCancel. destruct (onCancel (modal st)) as [|[]| |]; try done.
    simpl. apply noEmptyDate_delete.
  - destruct schedules as [|latest rest]; [done|]. simpl.
    apply noEmptyDate_decode.
Qed.

(** X7: in every state a session reaches, no date key of the store maps
    to an empty inner mapping: a date is in the store only while it holds
    an entry. *)
Theorem store_has_no_empty_date (st : AppState) (dateKey : string)
    (inner : gmap string ShiftEntry) :
  reachable st →
  monthlySchedule st !! dateKey = Some inner →
  ∃ employeeId shift, inner !! employeeId = Some shift.
Proof.
  intros Hreach Hd.
  assert (noEmptyDate (monthlySchedule st)) as Hinv.
  { clear Hd. induction Hreach as [|st ev _ IH].
    - intros d i. simpl. by rewrite lookup_empty.
    - by apply noEmptyDate_dispatch. }
  apply Hinv in Hd. apply map_choose in Hd as (k & v & Hk). eauto.
Qed.

(** ** Dismissing a modal *)

Lemma close_restores st t msg :
  isOpen (modal st) = false →
  clickConfirm (setModal (mkModal true t msg (CloseModal (modal st)) NoAction false) st)
  = st.
Proof.
  intros Hclosed. unfold clickConfirm. destruct st as [? ? ? ? ? ? ? ? ? m ?].
  simpl in *. destruct m. simpl in *. by subst.
Qed.

(** X8: when no modal is open, an edit of a shift or an add that opens a
    modal has changed nothing else, and confirming the modal gives back
    exactly the state before the edit or the add. *)
Theorem dismissed_refusal_restores (st : AppState) (ev : Event) :
  (ev = AddEmployee ∨ ∃ employeeId day value, ev = ShiftChange employeeId day value) →
  isOpen (modal st) = false →
  isOpen (modal (dispatch st ev)) = true →
  dispatch (dispatch st ev) Confirm = st.
Proof.
  intros [->|(employeeId & day & value & ->)] Hclosed Hopened; simpl in *.
  - unfold handleAddEmployee in *. destruct (_ && _).
    + simpl in Hopened. congruence.
    + by apply close_restores.
  - destruct (handleShiftChange_cases st employeeId day value)
      as [Heq|[(t & msg & Heq)|(v & Heq)]]; rewrite Heq in *.
    + congruence.
    + by apply close_restores.
    + simpl in Hopened. congruence.
Qed.

(** ** The roster *)

(** X9: a second add right after an add adds nothing: after an accepted add
    the draft is reset to an empty name, and after a refused add the draft
    is still the refused one. *)
Theorem add_twice_adds_once (st : AppState) :
  employees (handleAddEmployee (handleAddEmployee st))
  = employees (handleAddEmployee st).
Proof.
  assert (∀ s, draftComplete (newEmployee s) = false →
            handleAddEmployee s = setModal (incompleteModal s) s) as Hrefused.
  { intros s Hs. unfold handleAddEmployee.
    change (_ && _) with (draftComplete (newEmployee s)). by rewrite Hs. }
  rewrite (Hrefused (handleAddEmployee st)); [done|].
  destruct (draftComplete (newEmployee st)) eqn:E.
  - unfold handleAddEmployee.
    change (_ && _) with (draftComplete (newEmployee st)). by rewrite E.
  - by rewrite (Hrefused st E).
Qed.

Lemma countEmployee_step st day m e :
  countEmployee st day m e = m
  ∨ (countEmployee st day m e = S m
     ∧ (type e = PartTime ∨ branch e = selectedBranch st)).
Proof.
  unfold countEmployee. destruct (isClinicDayOffCell st day); [by left|].
  destruct (type e).
  - case_bool_decide; [|by left].
    destruct (entryAt _ _ _) as [[s|]|]; try by left.
    destruct (isWorkingValue s); [right|left]; auto.
  - destruct (entryAt _ _ _) as [[|t b]|]; try by left.
    destruct (_ && _); [right|left]; auto.
Qed.

(** X10: the daily staff count never exceeds the number of employees shown
    in the table of the viewed branch. *)
Theorem count_within_displayed (st : AppState) (day : Z) :
  (getDailyStaffCount st day ≤ length (displayedEmployees st))%nat.
Proof.
  unfold getDailyStaffCount, displayedEmployees.
  assert (∀ l n,
            (fold_left (countEmployee st day) l n
             ≤ n + length (filter (λ employee, type employee = PartTime
                                     ∨ branch employee = selectedBranch st) l))%nat)
    as Hfold; [|apply (Hfold (employees st) 0%nat)].
  induction l as [|e l IH]; intros n; cbn [fold_left].
  - rewrite filter_nil. simpl. lia.
  - rewrite filter_cons. specialize (IH (countEmployee st day n e)).
    destruct (countEmployee_step st day n e) as [Hs|[Hs Hv]]; rewrite Hs in IH |- *.
    + case_decide; cbn [length]; lia.
    + rewrite decide_True by done. cbn [length]. lia.
Qed.

Lemma deleteUpdater_idem x (s : MonthlySchedule) :
  deleteUpdater x (deleteUpdater x s) = deleteUpdater x s.
Proof.
  apply map_eq. intros d. rewrite !deleteUpdater_lookup. apply dropped_idem.
Qed.

Lemma filter_twice (x : string) (l : list Employee) :
  filter (λ emp, id emp ≠ x) (filter (λ emp, id emp ≠ x) l)
  = filter (λ emp, id emp ≠ x) l.
Proof.
  induction l as [|e l IH]; [done|]. rewrite (filter_cons _ e l).
  case_decide as Hne; [|done]. rewrite filter_cons, decide_True by done.
  by rewrite IH.
Qed.

(** X11: deleting the same employee id a second time, confirmed, changes
    nothing: the state after two confirmed deletes is the state after one. *)
Theorem confirmed_delete_idempotent (st : AppState) (deleted : string) :
  confirmedDelete (confirmedDelete st deleted) deleted
  = confirmedDelete st deleted.
Proof.
  unfold confirmedDelete, clickConfirm, handleDeleteEmployee. simpl.
  rewrite deleteUpdater_idem, filter_twice. done.
Qed.

Lemma editConsistent_dispatch st ev :
  editConsistent st → editConsistent (dispatch st ev).
Proof.
  intros Hst i. destruct ev; simpl; try apply Hst; try done.
  - destruct (handleShiftChange_fields st employeeId day value) as (_ & -> & ->).
    apply Hst.
  - destruct (handleAddEmployee_fields st) as (_ & -> & -> & _). apply Hst.
  - unfold clickConfirm.
    destruct (runModalAction_fields (onConfirm (modal st)) st) as (_ & -> & ->).
    apply Hst.
  - unfold clickCancel.
    destruct (runModalAction_fields (onCancel (modal st)) st) as (_ & -> & ->).
    apply Hst.
  - by intros [= <-].
  - intros Hi. destruct f; simpl; by apply Hst.
  - destruct (loadScheduleFromFirestore_fields schedules st) as (_ & -> & ->).
    apply Hst.
Qed.

Lemma reachable_editConsistent st : reachable st → editConsistent st.
Proof.
  induction 1 as [|st ev _ IH]; [done|]. by apply editConsistent_dispatch.
Qed.

(** X12: in every state a session reaches, saving an edit keeps the ids of
    the roster, in their order, so its length too; the employees whose id
    is not under edit are kept as they are, and a saved part-time employee
    carries the pool branch. *)
Theorem save_edit_keeps_ids (st : AppState) :
  reachable st →
  let st' := saveEditEmployee st in
  id <$> employees st' = id <$> employees st
  ∧ (∀ e, e ∈ employees st → Some (id e) ≠ editingEmployeeId st →
       e ∈ employees st')
  ∧ (∀ e, e ∈ employees st' → Some (id e) = editingEmployeeId st →
       type e = PartTime → branch e = PART_TIME_POOL)
  ∧ editingEmployeeId st' = None.
Proof.
  intros Hreach st'. apply reachable_editConsistent in Hreach.
  subst st'. unfold saveEditEmployee. simpl. repeat split.
  - rewrite <- list_fmap_compose. apply list_fmap_ext. intros _ emp _. simpl.
    case_bool_decide as Hid; [|done]. simpl. symmetry in Hid. by apply Hreach.
  - intros e Hin Hne. apply list_elem_of_fmap. exists e.
    split; [|done]. by rewrite bool_decide_eq_false_2.
  - intros e Hin Hid Hpt. apply list_elem_of_fmap in Hin as (emp & -> & Hemp).
    case_bool_decide as Hemp_id.
    + simpl in *. by rewrite Hpt.
    + simpl in Hid. congruence.
Qed.

(** ** Date keys *)

Lemma append_cons (c : ascii) (s t : string) :
  String c s ++ t = String c (s ++ t).
Proof. done. Qed.

Lemma append_nil (t : string) : "" ++ t = t.
Proof. done. Qed.

Lemma append_length (s t : string) :
  String.length (s ++ t) = (String.length s + String.length t)%nat.
Proof.
  induction s as [|c s IH]; [done|].
  rewrite append_cons. cbn [String.length]. by rewrite IH.
Qed.

Lemma append_inj_suffix (s1 s2 t1 t2 : string) :
  s1 ++ t1 = s2 ++ t2 → String.length t1 = String.length t2 →
  s1 = s2 ∧ t1 = t2.
Proof.
  revert s2. induction s1 as [|a s1 IH]; intros [|b s2];
    rewrite ?append_cons, ?append_nil; intros Heq Hlen.
  - done.
  - exfalso. rewrite Heq in Hlen. cbn [String.length] in Hlen.
    rewrite append_length in Hlen. lia.
  - exfalso. rewrite <- Heq in Hlen. cbn [String.length] in Hlen.
    rewrite append_length in Hlen. lia.
  - injection Heq as -> Heq. destruct (IH s2 Heq Hlen) as [-> ->]. done.
Qed.

Lemma append_inj_prefix (s t1 t2 : string) : s ++ t1 = s ++ t2 → t1 = t2.
Proof.
  induction s as [|c s IH]; [done|]. rewrite !append_cons.
  intros [= H]. by apply IH.
Qed.

Lemma String_of_inj (x y : Z) : JS.String_of x = JS.String_of y → x = y.
Proof.
  unfold JS.String_of. intros H. apply DecimalZ.to_int_inj.
  apply (f_equal NilEmpty.int_of_string) in H.
  rewrite !NilEmpty.isi in H. congruence.
Qed.

Lemma small_cases (P : Z → Prop) :
  Forall P (seqZ 0 32) → ∀ x, (0 ≤ x ≤ 31)%Z → P x.
Proof.
  intros Hall x Hx. rewrite Forall_forall in Hall. apply Hall.
  apply elem_of_seqZ. lia.
Qed.

Lemma pad2_length (x : Z) :
  (0 ≤ x ≤ 31)%Z → String.length (JS.padStart 2 "0" (JS.String_of x)) = 2%nat.
Proof.
  revert x. apply small_cases. refine (bool_decide_unpack _ _). by vm_compute.
Qed.

Lemma pad2_inj (x y : Z) :
  (0 ≤ x ≤ 31)%Z → (0 ≤ y ≤ 31)%Z →
  JS.padStart 2 "0" (JS.String_of x) = JS.padStart 2 "0" (JS.String_of y) → x = y.
Proof.
  intros Hx Hy. revert y Hy. revert x Hx.
  apply (small_cases
           (λ x, ∀ y, (0 ≤ y ≤ 31)%Z →
                      JS.padStart 2 "0" (JS.String_of x)
                      = JS.padStart 2 "0" (JS.String_of y) → x = y)).
  assert (Forall (λ x, Forall (λ y, JS.padStart 2 "0" (JS.String_of x)
                                   = JS.padStart 2 "0" (JS.String_of y) → x = y)
                         (seqZ 0 32)) (seqZ 0 32)) as Hall.
  { refine (bool_decide_unpack _ _). by vm_compute. }
  eapply Forall_impl; [exact Hall|]. intros x Hx y Hy.
  by apply (small_cases _ Hx).
Qed.

(** X13: the date keys of two cells are equal only when the year, the
    month and the day are: for months 0..11 and days 1..31, [dateKeyOf] is
    injective, whatever the years. *)
Theorem dateKeyOf_injective (y1 m1 d1 y2 m2 d2 : Z) :
  (0 ≤ m1 < 12)%Z → (0 ≤ m2 < 12)%Z →
  (1 ≤ d1 ≤ 31)%Z → (1 ≤ d2 ≤ 31)%Z →
  dateKeyOf y1 m1 d1 = dateKeyOf y2 m2 d2 →
  y1 = y2 ∧ m1 = m2 ∧ d1 = d2.
Proof.
  intros Hm1 Hm2 Hd1 Hd2. unfold dateKeyOf. intros Heq.
  apply append_inj_suffix in Heq as [Hy Heq].
  - apply String_of_inj in Hy. rewrite !append_cons, !append_nil in Heq.
    injection Heq as Heq.
    apply append_inj_suffix in Heq as [Hm Heq].
    + injection Heq as Hd.
      apply pad2_inj in Hm; [|lia..]. apply pad2_inj in Hd; [|lia..].
      repeat split; [done|lia|done].
    + cbn [String.length]. rewrite !pad2_length by lia. done.
  - rewrite !append_length. cbn [String.length].
    rewrite !pad2_length by lia. done.
Qed.

Lemma dateKeyOf_day_inj (y m d1 d2 : Z) :
  (1 ≤ d1 ≤ 31)%Z → (1 ≤ d2 ≤ 31)%Z →
  dateKeyOf y m d1 = dateKeyOf y m d2 → d1 = d2.
Proof.
  intros Hd1 Hd2. unfold dateKeyOf. intros Heq.
  apply append_inj_prefix in Heq. rewrite !append_cons, !append_nil in Heq.
  injection Heq as Heq. apply append_inj_prefix in Heq.
  injection Heq as Heq. apply pad2_inj in Heq; [done|lia..].
Qed.

Lemma getShiftValue_ext st st' employeeId day :
  employees st' = employees st →
  currentYear st' = currentYear st →
  currentMonth st' = currentMonth st →
  clinicDayOff st' = clinicDayOff st →
  selectedBranch st' = selectedBranch st →
  (∀ e, entryAt (monthlySchedule st')
          (dateKeyOf (currentYear st) (currentMonth st) day) e
        = entryAt (monthlySchedule st)
            (dateKeyOf (currentYear st) (currentMonth st) day) e) →
  getShiftValue st' employeeId day = getShiftValue st employeeId day.
Proof.
  intros He Hy Hm Hoff Hsel Hent. unfold getShiftValue, isClinicDayOffCell.
  rewrite He, Hy, Hm, Hoff, Hsel.
  destruct (findEmployee _ _) as [e|]; [|done]. by rewrite Hent.
Qed.

(** X14: an edit of the cell of one day changes what no cell of another
    day of the displayed month reads, for any employee: for two different
    days in 1..31, [getShiftValue] at the other day is as before the
    edit. *)
Theorem edit_leaves_other_days (st : AppState) (employeeId other : string)
    (day day' : Z) (value : string) :
  (1 ≤ day ≤ 31)%Z → (1 ≤ day' ≤ 31)%Z →
  day ≠ day' →
  getShiftValue (handleShiftChange st employeeId day value) other day'
  = getShiftValue st other day'.
Proof.
  intros Hd Hd' Hne.
  destruct (handleShiftChange_cases st employeeId day value)
    as [->|[(t & msg & ->)|(v & ->)]]; try done.
  apply getShiftValue_ext; try done.
  intros e. simpl. apply entryAt_assign_other. intros [= Hkey].
  apply dateKeyOf_day_inj in Hkey; [done|lia..].
Qed.

(** ** The weekly day off *)

Lemma getDay_lt (y m d : Z) : (JS.getDay y m d < 7)%nat.
Proof.
  unfold JS.getDay.
  match goal with |- context [(?a mod 7)%Z] =>
    pose proof (Z.mod_pos_bound a 7 ltac:(lia)) end.
  lia.
Qed.

Lemma getDay_shift (y m d k : Z) :
  JS.getDay y m (d + k) = JS.getDay y m d ↔ (k mod 7 = 0)%Z.
Proof.
  unfold JS.getDay.
  set (a := (JS.days_from_civil (JS.fullYear y + m / 12) (m mod 12 + 1) 1
             + (d - 1) + 4)%Z).
  replace (JS.days_from_civil (JS.fullYear y + m / 12) (m mod 12 + 1) 1
           + (d + k - 1) + 4)%Z with (a + k)%Z by (subst a; lia).
  pose proof (Z.mod_pos_bound a 7 ltac:(lia)).
  pose proof (Z.mod_pos_bound (a + k) 7 ltac:(lia)).
  split.
  - intros H1. apply Z2Nat.inj in H1; [|lia..].
    revert H1. clear. Z.to_euclidean_division_equations. lia.
  - intros Hk. f_equal. revert Hk. clear.
    Z.to_euclidean_division_equations. lia.
Qed.

Lemma NoDup_dayNames : NoDup dayNames.
Proof. refine (bool_decide_unpack _ _). by vm_compute. Qed.

Lemma weekday_name_not_none (i : nat) (n : string) :
  (i < 7)%nat → dayNames !! i = Some n → n ≠ NO_DAY_OFF.
Proof.
  intros Hi Hn Heq. subst n.
  assert (dayNames !! 7%nat = Some NO_DAY_OFF) as H7 by done.
  pose proof (NoDup_lookup _ _ _ _ NoDup_dayNames Hn H7). lia.
Qed.

Lemma column_is_cell st day :
  isClinicDayOffColumn st day = isClinicDayOffCell st day.
Proof.
  unfold isClinicDayOffColumn, isClinicDayOffCell.
  case_bool_decide as Hname; [|done]. simpl.
  rewrite bool_decide_eq_false_2; [done|].
  eapply weekday_name_not_none; [|exact Hname]. apply getDay_lt.
Qed.

(** X15: when a day is a clinic day off, the day [k] days later is one
    exactly when [k] is a multiple of 7: the closed days of the table are
    one weekday, every week. *)
Theorem closed_days_recur_weekly (st : AppState) (day k : Z) :
  isClinicDayOffCell st day = true →
  (isClinicDayOffCell st (day + k) = true ↔ (k mod 7 = 0)%Z).
Proof.
  intros Hclosed. pose proof (closed_day_name _ _ Hclosed) as Hname.
  split.
  - intros Hk. apply closed_day_name in Hk.
    apply (getDay_shift (currentYear st) (currentMonth st) day k).
    exact (NoDup_lookup _ _ _ _ NoDup_dayNames Hk Hname).
  - intros Hk.
    apply (getDay_shift (currentYear st) (currentMonth st) day k) in Hk.
    revert Hclosed. unfold isClinicDayOffCell. by rewrite Hk.
Qed.

(** X16: the table agrees with the handlers: the select of a cell is
    disabled, and the column marked, exactly on the days that the handlers
    treat as closed, although the table tests the weekday name alone; the
    value a cell shows for an employee of the roster is [getShiftValue];
    the [onChange] of a cell of a closed day does nothing and the one of an
    open day is [handleShiftChange]; and a closed column shows the closed
    tag in place of the count and raises no alert. *)
Theorem table_agrees_with_handlers (st : AppState) (e : Employee) (day : Z)
    (value : string) :
  isClinicDayOffColumn st day = isClinicDayOffCell st day
  ∧ (e ∈ employees st → displayShiftValue st e day = getShiftValue st (id e) day)
  ∧ (isClinicDayOffCell st day = true →
       cellOnChange st e day value = st
       ∧ countCellText st day = CLOSED
       ∧ countAlert st day = false)
  ∧ (isClinicDayOffCell st day = false →
       cellOnChange st e day value = handleShiftChange st (id e) day value).
Proof.
  split; [apply column_is_cell|]. split; [|split].
  - intros Hin. unfold displayShiftValue. rewrite column_is_cell.
    destruct (isClinicDayOffCell st day) eqn:Hc; [|done].
    unfold getShiftValue. destruct (findEmployee_member _ _ Hin) as [e' ->].
    by rewrite Hc.
  - intros Hc. unfold cellOnChange, countCellText, countAlert.
    rewrite column_is_cell, Hc. simpl. by rewrite andb_false_r.
  - intros Hc. unfold cellOnChange. by rewrite column_is_cell, Hc.
Qed.

(** ** Changing the month *)

Lemma fullYear_id (y : Z) : (100 ≤ y)%Z → JS.fullYear y = y.
Proof.
  intros Hy. unfold JS.fullYear.
  destruct (Z.leb_spec 0 y), (Z.leb_spec y 99); simpl; lia.
Qed.

(** X17: moving [k] months and then [k] months back returns to the state
    it started from, for a month in 0..11, as long as the years on the way
    are 100 or later (the [Date] constructor reads an earlier year as
    1900 + year); and the month after a move is in 0..11. *)
Theorem changeMonth_there_and_back (st : AppState) (k : Z) :
  (0 ≤ currentMonth st < 12)%Z →
  (100 ≤ currentYear st)%Z →
  (100 ≤ currentYear (changeMonth st k))%Z →
  changeMonth (changeMonth st k) (- k) = st
  ∧ (0 ≤ currentMonth (changeMonth st k) < 12)%Z.
Proof.
  intros Hm Hy Hy'. split.
  - unfold changeMonth in *. destruct st as [? ? ? y m ? ? ? ? ? ?].
    simpl in *. rewrite (fullYear_id y Hy) in *.
    rewrite (fullYear_id _ Hy'). unfold setCurrentDate. simpl. f_equal.
    + revert Hm. clear. Z.to_euclidean_division_equations. lia.
    + revert Hm. clear. Z.to_euclidean_division_equations. lia.
  - unfold changeMonth. simpl. apply Z.mod_pos_bound. lia.
Qed.

(** ** Ids given by adds *)

Lemma idPrefix_inj t1 t2 (s1 s2 : string) :
  idPrefix t1 ++ s1 = idPrefix t2 ++ s2 → t1 = t2 ∧ s1 = s2.
Proof.
  destruct t1, t2; unfold idPrefix; rewrite !append_cons, !append_nil;
    intros [= H]; done.
Qed.

Lemma sameType_snoc t l e :
  sameType t (l ++ [e])
  = (sameType t l ++ (if decide (type e = t) then [e] else []))%list.
Proof.
  unfold sameType. by rewrite filter_app.
Qed.

Lemma numbered_add (l : list Employee) (t : EmployeeType) (n p b : string) :
  numbered l →
  numbered (l ++ [mkEmployee
                    (idPrefix t
                     ++ JS.String_of (Z.of_nat (length (sameType t l)) + 1))
                    n p b t]).
Proof.
  intros [Hnd Hnum]. split.
  - rewrite fmap_app. apply NoDup_app. split; [done|]. split.
    + intros i Hi Hnew. apply list_elem_of_singleton in Hnew.
      apply list_elem_of_fmap in Hi as (e & -> & He).
      destruct (Hnum e He) as (k & Hk & Hid). simpl in Hnew.
      rewrite Hid in Hnew. apply idPrefix_inj in Hnew as [Ht Hs].
      apply String_of_inj in Hs. rewrite Ht in Hk. lia.
    + apply NoDup_singleton.
  - intros e [He|He]%elem_of_app.
    + destruct (Hnum e He) as (k & Hk & Hid). exists k. split; [|done].
      rewrite sameType_snoc, length_app. lia.
    + apply list_elem_of_singleton in He as ->. simpl.
      exists (S (length (sameType t l))). split.
      * rewrite sameType_snoc, length_app. simpl.
        rewrite decide_True by done. simpl. lia.
      * f_equal. f_equal. lia.
Qed.

Lemma numbered_handleAddEmployee st :
  numbered (employees st) → numbered (employees (handleAddEmployee st)).
Proof.
  intros Hst. unfold handleAddEmployee. destruct (_ && _); [|done].
  simpl. by apply numbered_add.
Qed.

Lemma noDelete_run a st :
  noDeleteBy a = true → noDeleteIn (modal st) = true →
  employees (runModalAction a st) = employees st
  ∧ noDeleteIn (modal (runModalAction a st)) = true.
Proof.
  intros Ha Hm. destruct a as [|[o t msg c1 c2 sc]| |]; simpl in *; try done.
Qed.

Lemma noDelete_split m :
  noDeleteIn m = true →
  noDeleteBy (onConfirm m) = true ∧ noDeleteBy (onCancel m) = true.
Proof. destruct m. simpl. by intros [? ?]%andb_true_iff. Qed.

Lemma keepsRoster_dispatch st ev :
  keepsRoster ev = true →
  numbered (employees st) ∧ noDeleteIn (modal st) = true →
  numbered (employees (dispatch st ev))
  ∧ noDeleteIn (modal (dispatch st ev)) = true.
Proof.
  intros Hev [Hnum Hm]. destruct ev; simpl in *; try done.
  - destruct (handleShiftChange_cases st employeeId day value)
      as [->|[(t & msg & ->)|(v & ->)]]; simpl; try done.
    split; [done|]. by rewrite Hm.
  - split; [by apply numbered_handleAddEmployee|].
    unfold handleAddEmployee. destruct (_ && _); simpl; [done|].
    by rewrite Hm.
  - unfold clickConfirm. destruct (noDelete_split _ Hm) as [Hc _].
    destruct (noDelete_run _ st Hc Hm) as [-> ?]. done.
  - unfold clickCancel. destruct (noDelete_split _ Hm) as [_ Hc].
    destruct (noDelete_run _ st Hc Hm) as [-> ?]. done.
Qed.

(** X18: the ids that adds give are distinct as long as no employee is
    deleted, no edit is saved and nothing is loaded: after any session of
    the other events from the first render, no two employees of the roster
    share an id. *)
Theorem ids_distinct_without_delete (todayYear todayMonth : Z)
    (evs : list Event) :
  Forall (λ ev, keepsRoster ev = true) evs →
  NoDup (id <$> employees (run (initialState todayYear todayMonth) evs)).
Proof.
  intros Hevs.
  assert (∀ st,
            numbered (employees st) ∧ noDeleteIn (modal st) = true →
            numbered (employees (run st evs))) as Hrun.
  { induction Hevs as [|ev evs Hev _ IH]; intros st Hst; [by destruct Hst|].
    apply IH. by apply keepsRoster_dispatch. }
  apply Hrun. split; [|done]. split; [constructor|].
  intros e He. by apply elem_of_nil in He.
Qed.

(** ** What the load keeps of a document *)

Lemma loadShift_other date empId (s : MonthlySchedule) entry d e :
  (d, e) ≠ (date, empId) →
  entryAt (loadShift date empId s entry) d e = entryAt s d e.
Proof. destruct entry as [day shift]. apply entryAt_assign_other. Qed.

Lemma loadDays_other date (s : MonthlySchedule) empId days d e :
  (d, e) ≠ (date, empId) →
  entryAt (loadDays date s (empId, days)) d e = entryAt s d e.
Proof.
  intros Hne. unfold loadDays. revert s.
  induction days as [|x days IH]; intros s; [done|].
  cbn [fold_left]. rewrite IH. by apply loadShift_other.
Qed.

Lemma loadDays_same date (s : MonthlySchedule) empId days :
  entryAt (loadDays date s (empId, days)) date empId
  = match last days with
    | Some (_, shift) => Some shift
    | None => entryAt s date empId
    end.
Proof.
  unfold loadDays. destruct days as [|x days _] using rev_ind; [done|].
  rewrite fold_left_app, last_snoc. cbn [fold_left].
  destruct x as [day shift]. apply entryAt_assign_same.
Qed.

Lemma fold_loadDays_other date entries (s : MonthlySchedule) d e :
  (d = date → e ∉ entries.*1) →
  entryAt (fold_left (loadDays date) entries s) d e = entryAt s d e.
Proof.
  revert s. induction entries as [|[empId days] entries IH]; intros s Hne;
    [done|].
  cbn [fold_left]. rewrite IH.
  - apply loadDays_other. intros [= -> ->]. apply Hne; [done|].
    rewrite fmap_cons. apply elem_of_cons. by left.
  - intros Hd Hin. apply Hne; [done|]. rewrite fmap_cons.
    apply elem_of_cons. by right.
Qed.

(** X19: of the schedule of the loaded document, the store keeps one cell
    for each employee id with at least one day, under the date field of
    the document, holding the shift of the last day listed for that id; an
    id with no day gets no cell, and no other date key or employee id is in
    the store. *)
Theorem load_keeps_last_day (latest : ScheduleDocument)
    (entries : list (string * list (string * ShiftEntry))) :
  doc_schedule latest = Some entries →
  NoDup entries.*1 →
  (∀ empId days, (empId, days) ∈ entries →
     entryAt (decodeSchedule latest) (doc_date latest) empId
     = snd <$> last days)
  ∧ (∀ d e, d ≠ doc_date latest ∨ e ∉ entries.*1 →
       entryAt (decodeSchedule latest) d e = None).
Proof.
  intros Hdoc Hnd. unfold decodeSchedule. rewrite Hdoc. split.
  - intros empId days Hin.
    apply list_elem_of_split in Hin as (l1 & l2 & ->).
    rewrite fmap_app, fmap_cons in Hnd. simpl in Hnd.
    apply NoDup_app in Hnd as (_ & Hl1 & Hl2).
    apply NoDup_cons in Hl2 as [Hl2 _].
    rewrite fold_left_app. cbn [fold_left].
    rewrite fold_loadDays_other by done.
    rewrite loadDays_same.
    destruct (last days) as [[day shift]|]; [done|]. simpl.
    rewrite fold_loadDays_other; [apply entryAt_empty|].
    intros _ Hin. apply (Hl1 empId Hin). apply elem_of_cons. by left.
  - intros d e Hde. rewrite fold_loadDays_other; [apply entryAt_empty|].
    intros Hd. by destruct Hde.
Qed.

(** ** The further properties on the sample sessions *)



Lemma part_timer_works_in_one_table_witness :
  isWorkingValue (getShiftValue (setSelectedBranch branchA morningAtA) "pte1" 2)
  = true
  ∧ branchA = branchA.
Proof.
  assert (findEmployee (employees morningAtA) (id pte1) = Some pte1) as Hfind
    by (vm_compute; reflexivity).
  assert (isWorkingValue
            (getShiftValue (setSelectedBranch branchA morningAtA) (id pte1) 2)
          = true) as Hw by (vm_compute; reflexivity).
  split; [exact Hw|].
  apply (part_timer_works_in_one_table morningAtA pte1 2 branchA branchA
           Hfind eq_refl); [|exact Hw|exact Hw].
  intros s Hs. vm_compute in Hs. congruence.
Defined.



Lemma store_has_no_empty_date_witness :
  reachable morningAtA
  ∧ ∃ employeeId shift,
      ({[ "pte1" := WorkingShiftObject MORNING branchA ]}
         : gmap string ShiftEntry) !! employeeId = Some shift.
Proof.
  assert (reachable morningAtA) as Hreach
    by (apply reachable_run; constructor).
  split; [exact Hreach|].
  apply (store_has_no_empty_date morningAtA "2025-06-02" _ Hreach).
  vm_compute. reflexivity.
Defined.

Lemma dismissed_refusal_restores_witness :
  isOpen (modal partTimerAdded) = false
  ∧ isOpen (modal (dispatch partTimerAdded AddEmployee)) = true
  ∧ dispatch (dispatch partTimerAdded AddEmployee) Confirm = partTimerAdded.
Proof.
  assert (isOpen (modal partTimerAdded) = false) as Hclosed
    by (vm_compute; reflexivity).
  assert (isOpen (modal (dispatch partTimerAdded AddEmployee)) = true) as Hopened
    by (vm_compute; reflexivity).
  split; [exact Hclosed|]. split; [exact Hopened|].
  exact (dismissed_refusal_restores partTimerAdded AddEmployee
           (or_introl eq_refl) Hclosed Hopened).
Defined.

Lemma save_edit_keeps_ids_witness :
  reachable (startEditEmployee morningAtA pte1)
  ∧ id <$> employees (saveEditEmployee (startEditEmployee morningAtA pte1))
    = ["pte1"].
Proof.
  assert (reachable (startEditEmployee morningAtA pte1)) as Hreach.
  { apply (reach_event morningAtA (StartEdit pte1)).
    apply reachable_run. constructor. }
  split; [exact Hreach|].
  destruct (save_edit_keeps_ids _ Hreach) as [Hids _].
  rewrite Hids. vm_compute. reflexivity.
Defined.

Lemma dateKeyOf_injective_witness :
  dateKeyOf 2025 5 2 = "2025-06-02" ∧ (2025 = 2025 ∧ 5 = 5 ∧ 2 = 2)%Z.
Proof.
  split; [vm_compute; reflexivity|].
  apply (dateKeyOf_injective 2025 5 2 2025 5 2); try (vm_compute; intuition congruence).
Defined.

Lemma edit_leaves_other_days_witness :
  getShiftValue (handleShiftChange morningAtA "pte1" 3 SICK) "pte1" 2
  = getShiftValue morningAtA "pte1" 2.
Proof.
  apply (edit_leaves_other_days morningAtA "pte1" "pte1" 3 2 SICK);
    vm_compute; intuition congruence.
Defined.

Lemma closed_days_recur_weekly_witness :
  isClinicDayOffCell morningAtA 1 = true
  ∧ isClinicDayOffCell morningAtA (1 + 7) = true.
Proof.
  assert (isClinicDayOffCell morningAtA 1 = true) as Hclosed
    by (vm_compute; reflexivity).
  split; [exact Hclosed|].
  apply (closed_days_recur_weekly morningAtA 1 7 Hclosed). vm_compute. reflexivity.
Defined.

Lemma table_agrees_with_handlers_witness :
  displayShiftValue morningAtA pte1 2 = MORNING
  ∧ cellOnChange morningAtA pte1 1 MORNING = morningAtA.
Proof.
  destruct (table_agrees_with_handlers morningAtA pte1 2 MORNING)
    as (_ & Hshow & _).
  destruct (table_agrees_with_handlers morningAtA pte1 1 MORNING)
    as (_ & _ & Hclosed & _).
  split.
  - rewrite (Hshow pte1_member). vm_compute. reflexivity.
  - apply Hclosed. vm_compute. reflexivity.
Defined.

Lemma changeMonth_there_and_back_witness :
  currentMonth (changeMonth morningAtA 7) = 0%Z
  ∧ currentYear (changeMonth morningAtA 7) = 2026%Z
  ∧ changeMonth (changeMonth morningAtA 7) (- 7) = morningAtA.
Proof.
  split; [vm_compute; reflexivity|]. split; [vm_compute; reflexivity|].
  apply (changeMonth_there_and_back morningAtA 7);
    vm_compute; intuition congruence.
Defined.

Lemma ids_distinct_without_delete_witness :
  NoDup (id <$> employees
           (run (initialState 2025 5)
              (addAll [partTimer; fullTimer "F" branchA; partTimer]
               ++ [ShiftChange "pte1" 2 MORNING; Confirm]))).
Proof.
  apply ids_distinct_without_delete.
  refine (bool_decide_unpack _ _). vm_compute. exact I.
Defined.

Lemma load_keeps_last_day_witness :
  entryAt (decodeSchedule twoDays) "2025-06" "emp1" = Some (ShiftString AFTERNOON).
Proof.
  destruct (load_keeps_last_day twoDays _ eq_refl) as [Hlast _].
  - apply NoDup_singleton.
  - exact (Hlast "emp1" _ (proj2 (list_elem_of_singleton _ _) eq_refl)).
Defined.
